(** * The ticket uploader [ops/scripts/upload-to-vector-store.py]

    A shallow embedding of the script and the properties of it that its
    specification states.  The script reads a JSONL file, renders every
    record through a fixed text template, writes the text to a transient
    file, uploads that file, attaches it to a vector store and removes the
    transient file; it counts successes and errors and prints a report.

    Layout: the values the script handles (JSON documents as [json.loads]
    returns them), the pieces of Python the template relies on, the world the
    script runs in (environment, disk, the OpenAI service), the script itself
    in a small state / exception / output monad, and then the theorems. *)

From Stdlib Require Import ZArith String Ascii List Bool Lia DecimalString.
From Stdlib Require Import Floats.SpecFloat.
From stdpp Require Import base gmap strings list.

#[local] Set Warnings "-register-all".

(** ** Values *)

(** What [json.loads] returns: [None], [bool], [int], [float], [str], [list]
    and [dict].  A [dict] is the list of its items in insertion order (the
    keys of a parsed object are distinct); a [str] is held as its UTF-8
    encoding, a surrogate that an escape left alone as the three bytes of
    its code point; a [float] is an IEEE binary64 value. *)
Inductive json : Type :=
| JNull
| JBool (b : bool)
| JInt (n : Z)
| JFloat (x : spec_float)
| JStr (s : string)
| JList (items : list json)
| JObj (fields : list (string * json)).

(** The exceptions that can reach one of the script's two handlers.  Those
    the interpreter, the operating system or the OpenAI client raise carry no
    text: the script only ever prints [str(e)]. *)
Inductive exn : Type :=
| ValueError (msg : string)
| FileNotFoundError (msg : string)
| AttributeError
| TypeError
| UnboundLocalError (name : string)
| ZeroDivisionError
| JSONDecodeError
| OSError
| APIError.

Inductive result (A : Type) : Type :=
| Ok (a : A)
| Raise (e : exn).
Arguments Ok {A} a.
Arguments Raise {A} e.

Definition rbind {A B} (r : result A) (k : A -> result B) : result B :=
  match r with
  | Ok a => k a
  | Raise e => Raise e
  end.

Declare Scope py_scope.
Delimit Scope py_scope with py.
Notation "'val' x <- r ; k" := (rbind r (fun x => k))
  (at level 10, x name, r at level 100, k at level 200) : py_scope.
Local Open Scope py_scope.

(** ** The Python the template uses *)

(** [str(n)] for an [int]. *)
Definition str_int (n : Z) : string := NilZero.string_of_int (Z.to_int n).
Definition str_nat (n : nat) : string := str_int (Z.of_nat n).

(** [d[key]] on the items of a dict, when the key is there. *)
Fixpoint dict_lookup (fields : list (string * json)) (key : string) : option json :=
  match fields with
  | [] => None
  | (k, v) :: rest => if String.eqb k key then Some v else dict_lookup rest key
  end.

(** [d.get(key, default)] *)
Definition dict_get (fields : list (string * json)) (key : string) (default : json) : json :=
  match dict_lookup fields key with
  | Some v => v
  | None => default
  end.

(** [obj.get(key, default)]: only a dict has the method. *)
Definition get (obj : json) (key : string) (default : json) : result json :=
  match obj with
  | JObj fields => Ok (dict_get fields key default)
  | _ => Raise AttributeError
  end.

(** Truth value of an object, as [if x] and [x or y] test it. *)
Definition truthy (v : json) : bool :=
  match v with
  | JNull => false
  | JBool b => b
  | JInt n => negb (n =? 0)%Z
  | JFloat (S754_zero _) => false
  | JFloat _ => true
  | JStr s => negb (String.eqb s "")
  | JList items => match items with [] => false | _ => true end
  | JObj fields => match fields with [] => false | _ => true end
  end.

(** The characters of a [str]: in the UTF-8 encoding a character is a
    leading byte and the continuation bytes (10xxxxxx) after it. *)
Definition is_continuation (c : ascii) : bool :=
  let n := N_of_ascii c in ((128 <=? n) && (n <? 192))%N.

Fixpoint chars (s : string) : list string :=
  match s with
  | EmptyString => []
  | String c rest =>
      match chars rest with
      | (String c' _ as hd) :: tl =>
          if is_continuation c' then String c hd :: tl
          else String c EmptyString :: hd :: tl
      | tl => String c EmptyString :: tl
      end
  end.

(** Iterating over an object: the items of a list, the characters of a str,
    the keys of a dict; anything else is not iterable. *)
Definition iterate (v : json) : result (list json) :=
  match v with
  | JList items => Ok items
  | JStr s => Ok (map JStr (chars s))
  | JObj fields => Ok (map (fun kv => JStr (fst kv)) fields)
  | _ => Raise TypeError
  end.

Fixpoint join_strings (sep : string) (items : list string) : string :=
  match items with
  | [] => ""
  | [s] => s
  | s :: rest => s +:+ sep +:+ join_strings sep rest
  end.

Fixpoint str_items (items : list json) : result (list string) :=
  match items with
  | [] => Ok []
  | JStr s :: rest => val l <- str_items rest; Ok (s :: l)
  | _ :: _ => Raise TypeError
  end.

(** [sep.join(v)]: every item of the iterable has to be a str. *)
Definition join (sep : string) (v : json) : result string :=
  val items <- iterate v;
  val strs <- str_items items;
  Ok (join_strings sep strs).

(** [s or 'None'] on a str. *)
Definition or_None (s : string) : string :=
  if String.eqb s "" then "None" else s.

Section Render.

(** [repr] of a float, a list or a dict is left to the interpreter. *)
Variable py_repr : json -> string.

(** What an f-string puts in place of [{v}]: [str(v)]. *)
Definition format (v : json) : string :=
  match v with
  | JStr s => s
  | JNull => "None"
  | JBool true => "True"
  | JBool false => "False"
  | JInt n => str_int n
  | _ => py_repr v
  end.

(** [{metadata.get(key, default)}] *)
Definition field (metadata : json) (key : string) (default : json) : result string :=
  val v <- get metadata key default; Ok (format v).

(** [{yes if metadata.get(key) else no}] *)
Definition flag (metadata : json) (key yes no : string) : result string :=
  val v <- get metadata key JNull; Ok (if truthy v then yes else no).

(** [{', '.join(metadata.get(key, [])) or 'None'}] *)
Definition joined (metadata : json) (key : string) : result string :=
  val v <- get metadata key (JList []);
  val s <- join ", " v;
  Ok (or_None s).

(** The f-string of lines 56 to 75; the holes are evaluated in order. *)
Definition text_content (doc metadata : json) : result string :=
  val ticketId <- field metadata "ticketId" (JStr "unknown");
  val subject <- field metadata "subject" (JStr "N/A");
  val language <- field metadata "language" (JStr "unknown");
  val category <- flag metadata "is_cancellation" "Cancellation" "Other";
  val payment <- flag metadata "has_payment_issue" "Yes" "No";
  val edge_case <- field metadata "edge_case" (JStr "none");
  val concerns <- joined metadata "customer_concerns";
  val text <- field doc "text" (JStr "");
  val ticketId' <- field metadata "ticketId" (JStr "unknown");
  val language' <- field metadata "language" (JStr "unknown");
  val has_payment_issue <- field metadata "has_payment_issue" (JBool false);
  val edge_case' <- field metadata "edge_case" (JStr "none");
  val concerns' <- joined metadata "customer_concerns";
  val keywords <- joined metadata "topic_keywords";
  val summary <- field metadata "conversation_summary" (JStr "None");
  Ok ("CANCELLATION TICKET: " +:+ ticketId +:+ "
Subject: " +:+ subject +:+ "
Language: " +:+ language +:+ "
Category: " +:+ category +:+ "
Payment Issue: " +:+ payment +:+ "
Edge Case: " +:+ edge_case +:+ "
Customer Concerns: " +:+ concerns +:+ "

CONVERSATION:
" +:+ text +:+ "

METADATA:
- Ticket ID: " +:+ ticketId' +:+ "
- Language: " +:+ language' +:+ "
- Has Payment Issue: " +:+ has_payment_issue +:+ "
- Edge Case: " +:+ edge_case' +:+ "
- Customer Concerns: " +:+ concerns' +:+ "
- Topic Keywords: " +:+ keywords +:+ "
- Conversation Summary: " +:+ summary +:+ "
").

(** [f"temp_cancellation_{metadata.get('ticketId', global_index)}.txt"] *)
Definition temp_filename (metadata : json) (global_index : nat) : result string :=
  val id <- field metadata "ticketId" (JInt (Z.of_nat global_index));
  Ok ("temp_cancellation_" +:+ id +:+ ".txt").

End Render.

(** ** The success rate *)

(** Python's floats are IEEE binary64; [SpecFloat] computes with them. *)
Definition prec : Z := 53.
Definition emax : Z := 1024.

(** An [int] as a float (exact below 2^53). *)
Definition float_of_nat (n : nat) : spec_float :=
  binary_normalize prec emax (Z.of_nat n) 0 false.

(** [a / b] on two ints: true division, which raises when [b] is 0. *)
Definition true_divide (a b : nat) : result spec_float :=
  if Nat.eqb b 0 then Raise ZeroDivisionError
  else Ok (SFdiv prec emax (float_of_nat a) (float_of_nat b)).

(** Nearest integer to [n / d], ties to even ([d] positive). *)
Definition round_half_even (n d : Z) : Z :=
  let q := (n / d)%Z in
  let r := (n mod d)%Z in
  match (2 * r ?= d)%Z with
  | Lt => q
  | Gt => (q + 1)%Z
  | Eq => if Z.even q then q else (q + 1)%Z
  end.

(** [f"{x:.1f}"]: the exact value of [x] rounded to one decimal. *)
Definition format_1f (x : spec_float) : string :=
  let sign (s : bool) : string := if s then "-" else "" in
  match x with
  | S754_zero s => sign s +:+ "0.0"
  | S754_infinity s => sign s +:+ "inf"
  | S754_nan => "nan"
  | S754_finite s m e =>
      let tenths :=
        match e with
        | Zneg p => round_half_even (Zpos m * 10) (Z.pow_pos 2 p)
        | _ => (Zpos m * 10 * 2 ^ e)%Z
        end in
      sign s +:+ str_int (tenths / 10) +:+ "." +:+ str_int (tenths mod 10)
  end.

(** [f"{(success_count / len(documents) * 100):.1f}"] *)
Definition success_rate (success_count total : nat) : result string :=
  val q <- true_divide success_count total;
  Ok (format_1f (SFmul prec emax q (float_of_nat 100))).

(** ** The world the script runs in *)

(** A line of the input file, by what the loader does with it: skipped
    ([line.strip()] is empty), rejected by [json.loads], or parsed. *)
Inductive input_line : Type :=
| Blank
| Malformed
| Parsed (doc : json).

Inductive input_file : Type :=
| Missing
| Unreadable (e : exn)
| Lines (lines : list input_line).

(** How writing the transient file ends: written in full, [open] raised, or
    the file was created and the write raised. *)
Inductive write_outcome : Type :=
| Written
| NotOpened (e : exn)
| Interrupted (partial : string) (e : exn).

(** What the operating system and the OpenAI service do while one record is
    processed; [None] is a call that returns normally. *)
Record attempt : Type := {
  write : write_outcome;              (* lines 79-80 *)
  open_rb : option exn;               (* line 83 *)
  files_create : result string;       (* lines 84-87, the id of the new file *)
  vector_store_attach : option exn;   (* lines 90-93 *)
  remove : option exn;                (* [os.remove] of line 96 *)
  cleanup : option exn                (* [os.remove] of line 108 *)
}.

(** Everything the script depends on and does not decide: the environment
    variables, how the interpreter prints floats and containers, whether the
    client can be built from the API key, the input file, the other files of
    the working directory, and what happens to each record, by its
    [global_index]. *)
Record world : Type := {
  getenv : string -> option string;
  py_repr : json -> string;
  client_error : option string -> option exn;
  input : input_file;
  files : gmap string string;
  attempts : nat -> attempt
}.

(** What the script does to the outside, in order. *)
Inductive event : Type :=
| EPrint (text : string)
| EPrintError (global_index total : nat) (ticket : string) (e : exn)
| EPrintFailed (e : exn)
| EGetenv (name : string)
| EOpenAI (api_key : option string)
| EExists (path : string)
| EOpen (path mode : string)
| EJsonLoads (lineno : nat)
| EWrite (path text : string)
| EFilesCreate (content purpose : string)
| EAttach (vector_store_id file_id : string)
| ERemove (path : string)
| ESleep (seconds : nat).

(** The disk and the variables of [upload_to_vector_store] that are
    assigned more than once. *)
Record state : Type := {
  disk : gmap string string;
  metadata : option json;
  success_count : nat;
  error_count : nat
}.

(** ** The monad: state, exceptions, and the events emitted *)

Definition M (A : Type) : Type := state -> result A * state * list event.

Definition ret {A} (a : A) : M A := fun s => (Ok a, s, []).

Definition raise {A} (e : exn) : M A := fun s => (Raise e, s, []).

Definition bind {A B} (m : M A) (k : A -> M B) : M B :=
  fun s =>
    match m s with
    | (Ok a, s1, t1) => let '(r, s2, t2) := k a s1 in (r, s2, t1 ++ t2)
    | (Raise e, s1, t1) => (Raise e, s1, t1)
    end.

Notation "'do' x <- m ; k" := (bind m (fun x => k))
  (at level 10, x name, m at level 100, k at level 200) : py_scope.
Notation "m ;; k" := (bind m (fun _ => k))
  (at level 100, k at level 200, right associativity) : py_scope.

(** [try: body except Exception as e: handler] *)
Definition try_except {A} (body : M A) (handler : exn -> M A) : M A :=
  fun s =>
    match body s with
    | (Raise e, s1, t1) => let '(r, s2, t2) := handler e s1 in (r, s2, t1 ++ t2)
    | done => done
    end.

Definition lift {A} (r : result A) : M A := fun s => (r, s, []).

Definition emit (e : event) : M unit := fun s => (Ok tt, s, [e]).

(** [print(text)].  Standard output is taken to accept the text.  Where it
    cannot encode it the source's [print] raises [UnicodeEncodeError]; such
    runs are outside this model, and the statements that a run goes on past
    a print whose text comes from the input or the service assume that the
    text is one standard output takes ([encodable], [prints_go_through]). *)
Definition print (text : string) : M unit := emit (EPrint text).

Definition set_disk (d : gmap string string) (s : state) : state :=
  {| disk := d; metadata := metadata s;
     success_count := success_count s; error_count := error_count s |}.

Definition assign_metadata (v : json) : M unit :=
  fun s => (Ok tt, {| disk := disk s; metadata := Some v;
                      success_count := success_count s;
                      error_count := error_count s |}, []).

(** Reading a local variable that no assignment has reached yet raises. *)
Definition read_metadata : M json :=
  fun s => match metadata s with
           | Some v => (Ok v, s, [])
           | None => (Raise (UnboundLocalError "metadata"), s, [])
           end.

Definition assign_counts (successes errors : nat) : M unit :=
  fun s => (Ok tt, {| disk := disk s; metadata := metadata s;
                      success_count := successes; error_count := errors |}, []).

Definition read_success_count : M nat := fun s => (Ok (success_count s), s, []).
Definition read_error_count : M nat := fun s => (Ok (error_count s), s, []).

Definition incr_success_count : M unit :=
  fun s => (Ok tt, {| disk := disk s; metadata := metadata s;
                      success_count := S (success_count s);
                      error_count := error_count s |}, []).

Definition incr_error_count : M unit :=
  fun s => (Ok tt, {| disk := disk s; metadata := metadata s;
                      success_count := success_count s;
                      error_count := S (error_count s) |}, []).

(** [os.path.exists(path)] *)
Definition path_exists (path : string) : M bool :=
  fun s => (Ok (bool_decide (is_Some (disk s !! path))), s, [EExists path]).

(** [with open(path, 'w', encoding='utf-8') as f: f.write(text)] *)
Definition write_text (path text : string) (o : write_outcome) : M unit :=
  fun s =>
    match o with
    | Written =>
        (Ok tt, set_disk (<[path := text]> (disk s)) s,
         [EOpen path "w"; EWrite path text])
    | NotOpened e => (Raise e, s, [EOpen path "w"])
    | Interrupted partial e =>
        (Raise e, set_disk (<[path := partial]> (disk s)) s,
         [EOpen path "w"; EWrite path text])
    end.

(** [open(path, 'rb')], handing back what the file holds. *)
Definition open_read (path : string) (o : option exn) : M string :=
  fun s =>
    match disk s !! path, o with
    | Some content, None => (Ok content, s, [EOpen path "rb"])
    | Some _, Some e => (Raise e, s, [EOpen path "rb"])
    | None, _ => (Raise OSError, s, [EOpen path "rb"])
    end.

(** [os.remove(path)] *)
Definition os_remove (path : string) (o : option exn) : M unit :=
  fun s =>
    match disk s !! path, o with
    | Some _, None => (Ok tt, set_disk (delete path (disk s)) s, [ERemove path])
    | Some _, Some e => (Raise e, s, [ERemove path])
    | None, _ => (Raise OSError, s, [ERemove path])
    end.

Definition sleep (seconds : nat) : M unit := emit (ESleep seconds).

(** [for x in l: f(x)] and [for j, x in enumerate(l): f(j, x)] *)
Fixpoint for_each {A} (f : A -> M unit) (l : list A) : M unit :=
  match l with
  | [] => ret tt
  | x :: rest => f x ;; for_each f rest
  end.

Fixpoint for_enumerate {A} (f : nat -> A -> M unit) (j : nat) (l : list A) : M unit :=
  match l with
  | [] => ret tt
  | x :: rest => f j x ;; for_enumerate f (S j) rest
  end.

(** [range(start, stop, step)] for a positive step. *)
Fixpoint range_from (count start step : nat) : list nat :=
  match count with
  | O => []
  | S count' => start :: range_from count' (start + step) step
  end.

Definition range (start stop step : nat) : list nat :=
  range_from ((stop - start + step - 1) / step) start step.

(** ** The script *)

(** The progress lines of lines 49, 98 and 112. *)
Definition batch_line (batch_num total_batches size : nat) : string :=
  "
📦 Processing batch " +:+ str_nat batch_num +:+ "/" +:+ str_nat total_batches
  +:+ " (" +:+ str_nat size +:+ " documents)".

Definition success_line (global_index total : nat) (ticket file_id : string) : string :=
  "  ✅ " +:+ str_nat global_index +:+ "/" +:+ str_nat total +:+ ": "
  +:+ ticket +:+ " (" +:+ file_id +:+ ")".

Definition waiting_line : string := "⏳ Waiting 3 seconds before next batch...".

Definition input_path : string := "vector-store-data-2025-10-10.jsonl".

Definition batch_size : nat := 5.

Section Script.

Variable w : world.

Definition os_getenv (name : string) : M (option string) :=
  fun s => (Ok (getenv w name), s, [EGetenv name]).

(** [OpenAI(api_key=...)]: the client may refuse to be built. *)
Definition OpenAI (api_key : option string) : M unit :=
  emit (EOpenAI api_key) ;;
  match client_error w api_key with
  | None => ret tt
  | Some e => raise e
  end.

(** Lines 31 to 35: the blank lines are skipped, the others parsed. *)
Fixpoint read_lines (lineno : nat) (lines : list input_line) (documents : list json)
  : M (list json) :=
  match lines with
  | [] => ret documents
  | Blank :: rest => read_lines (S lineno) rest documents
  | Malformed :: _ => emit (EJsonLoads lineno) ;; raise JSONDecodeError
  | Parsed doc :: rest =>
      emit (EJsonLoads lineno) ;; read_lines (S lineno) rest (documents ++ [doc])
  end.

(** Lines 27 to 35. *)
Definition read_documents : M (list json) :=
  emit (EExists input_path) ;;
  match input w with
  | Missing =>
      raise (FileNotFoundError ("Input file " +:+ input_path +:+ " not found"))
  | Unreadable e => emit (EOpen input_path "r") ;; raise e
  | Lines lines => emit (EOpen input_path "r") ;; read_lines 1 lines []
  end.

(** [client.files.create(file=temp_file, purpose='assistants')] on the
    opened transient file; the result is [file.id]. *)
Definition client_files_create (path purpose : string) (a : attempt) : M string :=
  do content <- open_read path (open_rb a);
  emit (EFilesCreate content purpose) ;;
  lift (files_create a).

(** [client.vector_stores.files.create(vector_store_id=..., file_id=...)] *)
Definition client_vector_stores_files_create
  (vector_store_id file_id : string) (a : attempt) : M unit :=
  emit (EAttach vector_store_id file_id) ;;
  match vector_store_attach a with
  | None => ret tt
  | Some e => raise e
  end.

(** The body of the [try], lines 54 to 99. *)
Definition upload_document (vector_store_id : string) (total global_index : nat)
  (doc : json) : M unit :=
  let a := attempts w global_index in
  do metadata <- lift (get doc "metadata" (JObj []));
  assign_metadata metadata ;;
  do text_content <- lift (text_content (py_repr w) doc metadata);
  do temp_filename <- lift (temp_filename (py_repr w) metadata global_index);
  write_text temp_filename text_content (write a) ;;
  do file_id <- client_files_create temp_filename "assistants" a;
  client_vector_stores_files_create vector_store_id file_id a ;;
  os_remove temp_filename (remove a) ;;
  do ticket <- lift (field (py_repr w) metadata "ticketId" (JStr "unknown"));
  print (success_line global_index total ticket file_id) ;;
  incr_success_count.

(** The [except Exception as e] clause, lines 101 to 108.  It reads
    [metadata] as the [try] left it.  The print of line 102 is an event of
    its own, with the ticket id it shows; like [print] it is taken to go
    through. *)
Definition upload_failed (total global_index : nat) (e : exn) : M unit :=
  let a := attempts w global_index in
  do metadata <- read_metadata;
  do ticket <- lift (field (py_repr w) metadata "ticketId" (JStr "unknown"));
  emit (EPrintError global_index total ticket e) ;;
  incr_error_count ;;
  do temp_filename <- lift (temp_filename (py_repr w) metadata global_index);
  do present <- path_exists temp_filename;
  if present then os_remove temp_filename (cleanup a) else ret tt.

(** One turn of the inner loop, lines 52 to 108. *)
Definition process_record (vector_store_id : string) (total global_index : nat)
  (doc : json) : M unit :=
  try_except (upload_document vector_store_id total global_index doc)
             (upload_failed total global_index).

(** One turn of the outer loop, lines 45 to 113. *)
Definition process_batch (vector_store_id : string) (documents : list json)
  (i : nat) : M unit :=
  let batch := take batch_size (drop i documents) in
  let batch_num := i / batch_size + 1 in
  let total_batches := (length documents + batch_size - 1) / batch_size in
  print (batch_line batch_num total_batches (length batch)) ;;
  for_enumerate
    (fun j doc => process_record vector_store_id (length documents) (i + j + 1) doc)
    0 batch ;;
  if i + batch_size <? length documents then
    print waiting_line ;;
    sleep 3
  else ret tt.

(** Lines 39 to 113. *)
Definition process_documents (vector_store_id : string) (documents : list json)
  : M unit :=
  assign_counts 0 0 ;;
  for_each (process_batch vector_store_id documents)
           (range 0 (length documents) batch_size).

(** Lines 115 to 124. *)
Definition report (vector_store_id : string) (documents : list json) : M unit :=
  print "
🎉 Upload completed!" ;;
  print "
📊 Results:" ;;
  print ("   Total documents: " +:+ str_nat (length documents)) ;;
  do successes <- read_success_count;
  print ("   Successfully uploaded: " +:+ str_nat successes) ;;
  do errors <- read_error_count;
  print ("   Errors: " +:+ str_nat errors) ;;
  do successes <- read_success_count;
  do rate <- lift (success_rate successes (length documents));
  print ("   Success rate: " +:+ rate +:+ "%") ;;
  print ("
🔗 Vector Store ID: " +:+ vector_store_id) ;;
  print "📁 Files uploaded with purpose: assistants" ;;
  print "
✅ Your RAG system is now ready to use the enhanced cancellation data!".

(** Lines 16 to 124. *)
Definition upload_to_vector_store : M unit :=
  print "🔄 Uploading cancellation tickets to vector store..." ;;
  do api_key <- os_getenv "OPENAI_API_KEY";
  OpenAI api_key ;;
  do vector_store_id <- os_getenv "OPENAI_VECTOR_STORE_ID";
  match vector_store_id with
  | Some id =>
      if String.eqb id "" then
        raise (ValueError "OPENAI_VECTOR_STORE_ID environment variable not set")
      else
        do documents <- read_documents;
        print ("Found " +:+ str_nat (length documents) +:+ " documents to upload") ;;
        process_documents id documents ;;
        report id documents
  | None =>
      raise (ValueError "OPENAI_VECTOR_STORE_ID environment variable not set")
  end.

(** The process: what it exits with, what it leaves, what it did. *)
Record run : Type := {
  exit_code : nat;
  final : state;
  trace : list event
}.

Definition initial_state : state :=
  {| disk := files w; metadata := None; success_count := 0; error_count := 0 |}.

(** Lines 126 to 131. *)
Definition main : run :=
  match upload_to_vector_store initial_state with
  | (Ok _, s, t) => {| exit_code := 0; final := s; trace := t |}
  | (Raise e, s, t) =>
      {| exit_code := 1; final := s; trace := t ++ [EPrintFailed e] |}
  end.

End Script.

Arguments text_content : simpl never.
Arguments temp_filename : simpl never.
Arguments field : simpl never.
Arguments success_line : simpl never.
Arguments batch_line : simpl never.
Arguments waiting_line : simpl never.
Arguments process_documents : simpl never.
Arguments report : simpl never.

(** ** What a trace shows of the batching *)

Inductive token : Type :=
| TBatch (text : string)
| TRecord
| TWait
| TSleep (seconds : nat).

Definition classify (e : event) : option token :=
  match e with
  | EPrint text =>
      if String.prefix "
📦 Processing batch " text then Some (TBatch text)
      else if String.prefix "  ✅ " text then Some TRecord
      else if String.eqb text waiting_line then Some TWait
      else None
  | EPrintError _ _ _ _ => Some TRecord
  | ESleep n => Some (TSleep n)
  | _ => None
  end.

Definition shape (t : list event) : list token := omap classify t.


(** ** Vocabulary of the statements *)

(** The records of a list, numbered from [p + 1] on, are processed one after
    the other and none of them stops the run; [ts] holds what each did. *)
Inductive processed (w : world) (vector_store_id : string) (total : nat)
  : nat -> list json -> state -> state -> list (list event) -> Prop :=
| processed_nil p s :
    processed w vector_store_id total p [] s s []
| processed_cons p doc rest s s1 s2 t ts :
    process_record w vector_store_id total (S p) doc s = (Ok tt, s1, t) ->
    processed w vector_store_id total (S p) rest s1 s2 ts ->
    processed w vector_store_id total p (doc :: rest) s s2 (t :: ts).

(** What the outer loop emits around the records: [count] batches from
    index [i] on, a header before each and a pause after all but the last. *)
Fixpoint weave (count i total : nat) (ts : list (list event)) : list event :=
  match count with
  | O => []
  | S count' =>
      EPrint (batch_line (i / batch_size + 1)
                         ((total + batch_size - 1) / batch_size)
                         (length (take batch_size ts)))
      :: concat (take batch_size ts)
      ++ (if i + batch_size <? total then [EPrint waiting_line; ESleep 3] else [])
      ++ weave count' (i + batch_size) total (drop batch_size ts)
  end.

(** A record the template can start on: an object whose [metadata], when
    there is one, is an object. *)
Definition valid_record (doc : json) : bool :=
  match doc with
  | JObj fields =>
      match dict_get fields "metadata" (JObj []) with
      | JObj _ => true
      | _ => false
      end
  | _ => false
  end.

(** The documents the loader ends up with when no line is malformed. *)
Definition documents_of (lines : list input_line) : list json :=
  omap (fun l => match l with Parsed doc => Some doc | _ => None end) lines.

Definition well_formed (l : input_line) : bool :=
  match l with
  | Malformed => false
  | _ => true
  end.

(** Lines 55 to 75 go through for the record. *)
Definition renders (w : world) (doc : json) : bool :=
  match get doc "metadata" (JObj []) with
  | Ok md =>
      match text_content (py_repr w) doc md with
      | Ok _ => true
      | Raise _ => false
      end
  | Raise _ => false
  end.

Definition returns (o : option exn) : bool :=
  match o with
  | None => true
  | Some _ => false
  end.

Definition written (a : attempt) : bool :=
  match write a with
  | Written => true
  | _ => false
  end.

(** Every step of the record's upload goes through. *)
Definition uploads (w : world) (global_index : nat) (doc : json) : bool :=
  let a := attempts w global_index in
  renders w doc && written a && returns (open_rb a)
  && match files_create a with Ok _ => true | Raise _ => false end
  && returns (vector_store_attach a) && returns (remove a).

(** The record gets as far as the service, one of the two API calls raises,
    and the handler's own clean-up goes through. *)
Definition fails_in_api_call (w : world) (global_index : nat) (doc : json) : bool :=
  let a := attempts w global_index in
  renders w doc && written a && returns (open_rb a)
  && match files_create a with
     | Ok _ => negb (returns (vector_store_attach a))
     | Raise _ => true
     end
  && returns (cleanup a).

(** [check (p + 1) doc] holds of every document, [p] its index in the list. *)
Fixpoint all_records (check : nat -> json -> bool) (p : nat) (l : list json) : bool :=
  match l with
  | [] => true
  | doc :: rest => check (S p) doc && all_records check (S p) rest
  end.

(** All the records upload but record [k], which fails in an API call. *)
Definition one_failure (w : world) (k : nat) (global_index : nat) (doc : json) : bool :=
  if global_index =? k then fails_in_api_call w global_index doc
  else uploads w global_index doc.


(** Sorting the events. *)
Definition is_file_access (e : event) : bool :=
  match e with
  | EExists _ | EOpen _ _ | EJsonLoads _ | EWrite _ _ | ERemove _ => true
  | _ => false
  end.

Definition is_parse (e : event) : bool :=
  match e with
  | EJsonLoads _ => true
  | _ => false
  end.

Definition is_api_call (e : event) : bool :=
  match e with
  | EFilesCreate _ _ | EAttach _ _ => true
  | _ => false
  end.

(** The exception the top-level handler reported, when it did. *)
Definition fatal_error (r : run) : option exn :=
  match last (trace r) with
  | Some (EPrintFailed e) => Some e
  | _ => None
  end.

(** The percentage [successes / total * 100] computed on the rationals and
    rounded to one decimal, ties to even, for comparison with what the
    floats of [success_rate] give. *)
Definition exact_rate (successes total : nat) : string :=
  let tenths := round_half_even (Z.of_nat successes * 1000) (Z.of_nat total) in
  str_int (tenths / 10) +:+ "." +:+ str_int (tenths mod 10).

(** ** Sample worlds *)

(** Every call goes through; the service hands out the id [file-1]. *)
Definition quiet_attempt : attempt :=
  {| write := Written; open_rb := None; files_create := Ok "file-1";
     vector_store_attach := None; remove := None; cleanup := None |}.

(** The first API call raises. *)
Definition refused_attempt : attempt :=
  {| write := Written; open_rb := None; files_create := Raise APIError;
     vector_store_attach := None; remove := None; cleanup := None |}.

Definition sample_getenv (name : string) : option string :=
  if String.eqb name "OPENAI_API_KEY" then Some "sk-test"
  else if String.eqb name "OPENAI_VECTOR_STORE_ID" then Some "vs_123"
  else None.

(** Both variables set, an empty working directory, a service that accepts
    everything, and the given input file. *)
Definition sample_world (file : input_file) : world :=
  {| getenv := sample_getenv;
     py_repr := fun _ => "?";
     client_error := fun _ => None;
     input := file;
     files := ∅;
     attempts := fun _ => quiet_attempt |}.

(** A ticket with its text only, and one with a list of concerns. *)
Definition plain_ticket : json := JObj [("text", JStr "hello")].

Definition refund_ticket : json :=
  JObj [("text", JStr "where is my refund");
        ("metadata",
         JObj [("ticketId", JStr "T-7");
               ("customer_concerns", JList [JStr "refund"; JStr "delay"])])].

(** The line [{"text": "hello", "metadata": null}]. *)
Definition null_metadata_ticket : json :=
  JObj [("text", JStr "hello"); ("metadata", JNull)].

(** A file of two records, the first with [null] for its metadata. *)
Definition null_metadata_world : world :=
  sample_world (Lines [Parsed null_metadata_ticket; Parsed plain_ticket]).

(** A file with no record in it. *)
Definition empty_input_world : world := sample_world (Lines []).

(** No input file, and [OPENAI_VECTOR_STORE_ID] not set either. *)
Definition unset_and_missing_world : world :=
  {| getenv := fun name =>
       if String.eqb name "OPENAI_API_KEY" then Some "sk-test" else None;
     py_repr := fun _ => "?";
     client_error := fun _ => None;
     input := Missing;
     files := ∅;
     attempts := fun _ => quiet_attempt |}.

(** Three tickets, the second of which the service refuses. *)
Definition second_refused_world : world :=
  {| getenv := sample_getenv;
     py_repr := fun _ => "?";
     client_error := fun _ => None;
     input := Lines [Parsed plain_ticket; Blank; Parsed refund_ticket;
                     Parsed plain_ticket];
     files := ∅;
     attempts := fun gi => if gi =? 2 then refused_attempt else quiet_attempt |}.

Definition twelve_tickets : list json := repeat plain_ticket 12.

(** ** Tactics *)

(** Follow the steps of a record through every outcome of every call. *)
Ltac run_steps :=
  unfold upload_document, upload_failed, client_files_create,
    client_vector_stores_files_create, write_text, open_read, os_remove,
    path_exists, read_metadata, print, emit, incr_success_count,
    incr_error_count, assign_metadata, lift, bind, ret, raise;
  intros;
  repeat (case_match; simplify_eq/=).

(** Unfold the processing of a record down to the monad. *)
Ltac unfold_record :=
  unfold process_record, try_except, upload_document, upload_failed,
    client_files_create, client_vector_stores_files_create, write_text,
    open_read, os_remove, path_exists, read_metadata, print, emit,
    incr_success_count, incr_error_count, assign_metadata, lift, bind, ret,
    raise.


(** ** Further vocabulary *)

Definition is_blank (l : input_line) : bool :=
  match l with
  | Blank => true
  | _ => false
  end.

Definition is_object (v : json) : bool :=
  match v with
  | JObj _ => true
  | _ => false
  end.

Definition is_files_create (e : event) : bool :=
  match e with
  | EFilesCreate _ _ => true
  | _ => false
  end.

Definition is_attach (e : event) : bool :=
  match e with
  | EAttach _ _ => true
  | _ => false
  end.

(** The events that change something outside the process. *)
Definition is_write_or_remove (e : event) : bool :=
  match e with
  | EOpen _ mode => String.eqb mode "w"
  | EWrite _ _ | ERemove _ => true
  | _ => false
  end.

(** What the batching of [total] records looks like, batch by batch: a
    header with the number of the batch, the number of batches and the size
    of the batch, one outcome per record, and a pause after every batch but
    the last. *)
Definition batch_shape (total batches b : nat) : list token :=
  let size := Nat.min batch_size (total - b * batch_size) in
  TBatch (batch_line (b + 1) batches size)
  :: repeat TRecord size
  ++ (if b + 1 <? batches then [TWait; TSleep 3] else []).

Definition batches_shape (total : nat) : list token :=
  let batches := (total + batch_size - 1) / batch_size in
  flat_map (batch_shape total batches) (seq 0 batches).

(** The sample world with a file of the user's in the working directory. *)
Definition notes_world : world :=
  {| getenv := sample_getenv;
     py_repr := fun _ => "?";
     client_error := fun _ => None;
     input := Lines [Parsed plain_ticket; Parsed refund_ticket];
     files := {["notes.txt" := "keep"]};
     attempts := fun _ => quiet_attempt |}.

Definition seven_tickets : list json := repeat plain_ticket 7.

(** Attempts where the attach call raises, and where the first API call
    and then the handler's [os.remove] raise. *)
Definition unattached_attempt : attempt :=
  {| write := Written; open_rb := None; files_create := Ok "file-1";
     vector_store_attach := Some APIError; remove := None; cleanup := None |}.

Definition stuck_attempt : attempt :=
  {| write := Written; open_rb := None; files_create := Raise APIError;
     vector_store_attach := None; remove := None; cleanup := Some OSError |}.

Definition world_with (a : attempt) : world :=
  {| getenv := sample_getenv;
     py_repr := fun _ => "?";
     client_error := fun _ => None;
     input := Lines [Parsed refund_ticket];
     files := ∅;
     attempts := fun _ => a |}.

(** The metadata of [refund_ticket] and the document it renders to. *)
Definition refund_metadata : list (string * json) :=
  [("ticketId", JStr "T-7");
   ("customer_concerns", JList [JStr "refund"; JStr "delay"])].

Definition refund_text : string :=
  "CANCELLATION TICKET: T-7
Subject: N/A
Language: unknown
Category: Other
Payment Issue: No
Edge Case: none
Customer Concerns: refund, delay

CONVERSATION:
where is my refund

METADATA:
- Ticket ID: T-7
- Language: unknown
- Has Payment Issue: False
- Edge Case: none
- Customer Concerns: refund, delay
- Topic Keywords: None
- Conversation Summary: None
".

(** ** What standard output takes *)

(** [print] encodes its text for standard output, in UTF-8 as the script's
    own lines need it, and the encoder refuses the surrogates U+D800 to
    U+DFFF: [print] then raises [UnicodeEncodeError].  [json.loads] lets a
    surrogate through from an escape such as [\ud800], and [os.getenv] from
    a byte it cannot decode.  In the encoding the strings are held in, a
    surrogate is the three bytes [ED A0..BF 80..BF]. *)
Definition is_surrogate (c c' : ascii) : bool :=
  ((N_of_ascii c =? 237) && (160 <=? N_of_ascii c'))%N.

Fixpoint encodable (s : string) : bool :=
  match s with
  | String c (String c' _ as rest) => negb (is_surrogate c c') && encodable rest
  | _ => true
  end.

(** [metadata.get('ticketId', 'unknown')] as lines 98 and 102 print it for
    a record. *)
Definition ticket_of (w : world) (doc : json) : string :=
  match get doc "metadata" (JObj []) with
  | Ok md =>
      match field (py_repr w) md "ticketId" (JStr "unknown") with
      | Ok ticket => ticket
      | Raise _ => ""
      end
  | Raise _ => ""
  end.

(** The two prints of a record, lines 98 and 102, go through: standard
    output takes the ticket id, and the file id if the service returns one.
    (The text of an exception that line 102 shows is the interpreter's, the
    operating system's or the client's, and is taken to be printable.) *)
Definition prints_go_through (w : world) (global_index : nat) (doc : json) : bool :=
  encodable (ticket_of w doc)
  && match files_create (attempts w global_index) with
     | Ok file_id => encodable file_id
     | Raise _ => true
     end.

(** The ticket id [\ud800] of a record [json.loads] accepts. *)
Definition lone_surrogate : string :=
  String (ascii_of_N 237) (String (ascii_of_N 160) (String (ascii_of_N 128) "")).

Definition surrogate_ticket : json :=
  JObj [("text", JStr "hello");
        ("metadata", JObj [("ticketId", JStr lone_surrogate)])].
(** * Properties *)

(** ** Rendering *)

Section RenderFacts.

Variable py_repr : json -> string.

Lemma field_dict fields key default :
  field py_repr (JObj fields) key default
  = Ok (format py_repr (dict_get fields key default)).
Proof. reflexivity. Qed.

Lemma text_content_metadata_dict doc metadata text :
  text_content py_repr doc metadata = Ok text ->
  exists fields, metadata = JObj fields.
Proof.
  unfold text_content. destruct metadata; try discriminate. eauto.
Qed.

Lemma temp_filename_dict fields global_index :
  temp_filename py_repr (JObj fields) global_index
  = Ok ("temp_cancellation_"
        +:+ format py_repr (dict_get fields "ticketId" (JInt (Z.of_nat global_index)))
        +:+ ".txt").
Proof. reflexivity. Qed.

Lemma append_assoc (a b c : string) : (a +:+ b) +:+ c = a +:+ b +:+ c.
Proof.
  induction a as [|x a IH]; [done|].
  change (String x ((a +:+ b) +:+ c) = String x (a +:+ b +:+ c)).
  by rewrite IH.
Qed.


End RenderFacts.

Lemma prefix_empty s : String.prefix "" s = true.
Proof. destruct s; reflexivity. Qed.

Lemma prefix_append p s : String.prefix p (p +:+ s) = true.
Proof.
  induction p as [|c p IH]; simpl; [apply prefix_empty|].
  destruct (ascii_dec c c); [exact IH | congruence].
Qed.

Lemma classify_success_line gi total ticket file_id :
  classify (EPrint (success_line gi total ticket file_id)) = Some TRecord.
Proof. unfold classify, success_line. rewrite prefix_append. reflexivity. Qed.

Lemma classify_batch_line n m k :
  classify (EPrint (batch_line n m k)) = Some (TBatch (batch_line n m k)).
Proof. unfold classify, batch_line. rewrite prefix_append. reflexivity. Qed.

Lemma classify_waiting_line : classify (EPrint waiting_line) = Some TWait.
Proof. reflexivity. Qed.

Lemma shape_app t1 t2 : shape (t1 ++ t2) = shape t1 ++ shape t2.
Proof. apply omap_app. Qed.

Lemma shape_cons e t :
  shape (e :: t) = match classify e with Some k => k :: shape t | None => shape t end.
Proof. reflexivity. Qed.
Arguments shape : simpl never.


(** ** One record *)

Section Record.

Variable w : world.

(** The [try] body leaves [error_count] alone, and adds one to
    [success_count] exactly when it gets to its end. *)
Lemma upload_document_inv vsid total gi doc s r s' t :
  upload_document w vsid total gi doc s = (r, s', t) ->
  error_count s' = error_count s /\
  match r with
  | Ok _ => success_count s' = S (success_count s) /\ shape t = [TRecord]
  | Raise _ => success_count s' = success_count s /\ shape t = []
  end.
Proof.
  run_steps; rewrite ?shape_cons, ?classify_success_line; try done.
Qed.

(** A file the body opened for writing is gone when the body ends
    normally; when it raises, the file goes by the name the handler is
    going to compute. *)
Lemma upload_document_files vsid total gi doc s r s' t path :
  upload_document w vsid total gi doc s = (r, s', t) ->
  In (EOpen path "w") t ->
  match r with
  | Ok _ => disk s' !! path = None
  | Raise _ =>
      exists md, metadata s' = Some md
        /\ temp_filename (py_repr w) md gi = Ok path
  end.
Proof.
  run_steps; intuition; simplify_eq; eauto; apply lookup_delete_eq.
Qed.

Lemma upload_failed_inv total gi e s u s' t :
  upload_failed w total gi e s = (Ok u, s', t) ->
  success_count s' = success_count s /\
  error_count s' = S (error_count s) /\
  shape t = [TRecord] /\
  (forall path mode, ~ In (EOpen path mode) t) /\
  (forall md path,
     metadata s = Some md ->
     temp_filename (py_repr w) md gi = Ok path ->
     disk s' !! path = None).
Proof.
  run_steps;
    (split; [done|]); (split; [done|]); (split; [done|]);
    (split; [intros ? ? ?; intuition; simplify_eq|]);
    intros md path ? ?; simplify_eq;
    match goal with
    | H1 : temp_filename _ ?m _ = Ok ?x, H2 : temp_filename _ ?m _ = Ok ?y |- _ =>
        assert (x = y) by congruence; subst
    end.
  - apply lookup_delete_eq.
  - apply eq_None_not_Some. by eapply bool_decide_eq_false_1.
Qed.

Lemma try_except_inv {A} (body : M A) handler s r s' t :
  try_except body handler s = (r, s', t) ->
  (exists a, body s = (Ok a, s', t) /\ r = Ok a) \/
  (exists e s1 t1 t2,
     body s = (Raise e, s1, t1) /\ handler e s1 = (r, s', t2) /\ t = t1 ++ t2).
Proof.
  unfold try_except. destruct (body s) as [[[a|e] s1] t1].
  - intros [= <- <- <-]. left. by exists a.
  - destruct (handler e s1) as [[r2 s2] t2] eqn:Hh. intros [= <- <- <-].
    right. by exists e, s1, t1, t2.
Qed.

(** A record whose processing ends moves exactly one of the counters, by
    one, prints one outcome line, and leaves no file it wrote. *)
Lemma process_record_inv vsid total gi doc s s' t :
  process_record w vsid total gi doc s = (Ok tt, s', t) ->
  (success_count s' = S (success_count s) /\ error_count s' = error_count s
   \/ success_count s' = success_count s /\ error_count s' = S (error_count s)) /\
  shape t = [TRecord] /\
  (forall path, In (EOpen path "w") t -> disk s' !! path = None).
Proof.
  intros H. apply try_except_inv in H as [(a & Hb & _)|(e & s1 & t1 & t2 & Hb & Hh & ->)].
  - pose proof (upload_document_inv _ _ _ _ _ _ _ _ Hb) as (He & Hs & Ht).
    repeat split; [left; done | done |].
    intros path Hin. exact (upload_document_files _ _ _ _ _ _ _ _ _ Hb Hin).
  - pose proof (upload_document_inv _ _ _ _ _ _ _ _ Hb) as (He & Hs & Ht).
    pose proof (upload_failed_inv _ _ _ _ _ _ _ Hh) as (Hs' & He' & Ht' & Hno & Hgone).
    repeat split.
    + right. split; congruence.
    + by rewrite shape_app, Ht, Ht'.
    + intros path [Hin|Hin]%in_app_or; [|by apply Hno in Hin].
      destruct (upload_document_files _ _ _ _ _ _ _ _ _ Hb Hin) as (md & Hmd & Hname).
      eauto.
Qed.

(** Whatever the body does to a valid record, it leaves the record's own
    metadata, an object, in [metadata]. *)
Lemma upload_document_metadata vsid total gi doc s r s' t :
  valid_record doc = true ->
  upload_document w vsid total gi doc s = (r, s', t) ->
  exists fields, metadata s' = Some (JObj fields).
Proof.
  unfold valid_record. intros Hv. repeat (case_match; simplify_eq/=).
  run_steps; match goal with H : dict_get _ _ _ = _ |- _ => rewrite H end; eauto.
Qed.

(** With an object in [metadata] the handler can only stop on its
    [os.remove]. *)
Lemma upload_failed_total total gi e s fields :
  metadata s = Some (JObj fields) ->
  cleanup (attempts w gi) = None ->
  exists s' t, upload_failed w total gi e s = (Ok tt, s', t).
Proof.
  intros Hmd Hclean. unfold_record.
  rewrite Hmd, field_dict, temp_filename_dict, Hclean. cbn.
  destruct (disk s !! _) as [content|] eqn:Hd; cbn; rewrite ?Hd; cbn; eauto.
Qed.

Lemma process_record_total vsid total gi doc s :
  valid_record doc = true ->
  cleanup (attempts w gi) = None ->
  exists s' t, process_record w vsid total gi doc s = (Ok tt, s', t).
Proof.
  intros Hv Hclean. unfold process_record, try_except.
  destruct (upload_document w vsid total gi doc s) as [[[[]|e] s1] t1] eqn:Hb.
  - eauto.
  - destruct (upload_document_metadata _ _ _ _ _ _ _ _ Hv Hb) as [fields Hmd].
    destruct (upload_failed_total total gi e s1 fields Hmd Hclean) as (s2 & t2 & ->).
    eauto.
Qed.

(** The two outcomes the statements single out. *)
Lemma uploads_run vsid total gi doc s :
  uploads w gi doc = true ->
  exists s' t ticket file_id,
    process_record w vsid total gi doc s = (Ok tt, s', t) /\
    success_count s' = S (success_count s) /\
    error_count s' = error_count s /\
    In (EPrint (success_line gi total ticket file_id)) t.
Proof.
  unfold uploads, renders, written, returns. intros H.
  repeat (case_match; simplify_eq/=).
  destruct (text_content_metadata_dict _ _ _ _ H1) as [fields ->].
  unfold_record.
  repeat first
    [ rewrite H0 | rewrite H1 | rewrite H2 | rewrite H3 | rewrite H4
    | rewrite H5 | rewrite H6 | rewrite temp_filename_dict | rewrite field_dict
    | rewrite lookup_insert_eq | progress cbn ].
  eexists _, _, _, _. split; [reflexivity|]. cbn. tauto.
Qed.

Lemma fails_in_api_call_run vsid total gi doc s :
  fails_in_api_call w gi doc = true ->
  exists s' t ticket e,
    process_record w vsid total gi doc s = (Ok tt, s', t) /\
    success_count s' = success_count s /\
    error_count s' = S (error_count s) /\
    In (EPrintError gi total ticket e) t.
Proof.
  unfold fails_in_api_call, renders, written, returns. intros H.
  repeat (case_match; simplify_eq/=);
  destruct (text_content_metadata_dict _ _ _ _ H1) as [fields ->];
  unfold_record;
  repeat first
    [ rewrite H0 | rewrite H1 | rewrite H2 | rewrite H3 | rewrite H4
    | rewrite H5 | rewrite H6 | rewrite temp_filename_dict | rewrite field_dict
    | rewrite lookup_insert_eq | progress cbn ];
  (eexists _, _, _, _; split; [reflexivity|]; cbn; tauto).
Qed.

End Record.

(** ** The loops *)

Lemma bind_ok_inv {A B} (m : M A) (k : A -> M B) s b s' t :
  bind m k s = (Ok b, s', t) ->
  exists a s1 t1 t2,
    m s = (Ok a, s1, t1) /\ k a s1 = (Ok b, s', t2) /\ t = t1 ++ t2.
Proof.
  unfold bind. destruct (m s) as [[[a|e] s1] t1]; [|discriminate].
  destruct (k a s1) as [[r2 s2] t2] eqn:Hk. intros [= -> <- <-].
  by exists a, s1, t1, t2.
Qed.

Lemma bind_ok {A B} (m : M A) (k : A -> M B) s a s1 t1 r s2 t2 :
  m s = (Ok a, s1, t1) -> k a s1 = (r, s2, t2) ->
  bind m k s = (r, s2, t1 ++ t2).
Proof. unfold bind. by intros -> ->. Qed.

Section Loops.

Variable w : world.
Variable vsid : string.
Variable documents : list json.

Local Abbreviation total := (length documents).
Local Abbreviation record := (process_record w vsid total).

Lemma processed_length p l s s' ts :
  processed w vsid total p l s s' ts -> length ts = length l.
Proof. induction 1; simpl; congruence. Qed.

Lemma processed_app p l1 l2 s s1 s2 ts1 ts2 :
  processed w vsid total p l1 s s1 ts1 ->
  processed w vsid total (p + length l1) l2 s1 s2 ts2 ->
  processed w vsid total p (l1 ++ l2) s s2 (ts1 ++ ts2).
Proof.
  induction 1 as [p s|p doc rest s sa sb t ts Hdoc Hrest IH]; simpl.
  - by rewrite Nat.add_0_r.
  - intros H2. econstructor; [done|]. apply IH.
    by replace (S p + length rest) with (p + S (length rest)) by lia.
Qed.

Lemma for_enumerate_inv i l : forall j s s' t,
  for_enumerate (fun j doc => record (i + j + 1) doc) j l s = (Ok tt, s', t) ->
  exists ts, processed w vsid total (i + j) l s s' ts /\ t = concat ts.
Proof.
  induction l as [|doc rest IH]; simpl; intros j s s' t H.
  - injection H as <- <-. exists []. split; [constructor | done].
  - apply bind_ok_inv in H as ([] & s1 & t1 & t2 & Hdoc & Hrest & ->).
    apply IH in Hrest as (ts & Hts & ->).
    exists (t1 :: ts). split; [|done].
    econstructor.
    + by replace (S (i + j)) with (i + j + 1) by lia.
    + by replace (S (i + j)) with (i + S j) by lia.
Qed.

Lemma for_enumerate_total i l : forall j,
  (forall q doc s, l !! q = Some doc ->
     exists s' t, record (i + (j + q) + 1) doc s = (Ok tt, s', t)) ->
  forall s, exists s' t,
    for_enumerate (fun j doc => record (i + j + 1) doc) j l s = (Ok tt, s', t).
Proof.
  induction l as [|doc rest IH]; simpl; intros j Hl s.
  - by exists s, [].
  - destruct (Hl 0 doc s eq_refl) as (s1 & t1 & H1).
    rewrite Nat.add_0_r in H1.
    destruct (IH (S j)) with (s := s1) as (s2 & t2 & H2).
    { intros q d s0 Hq. replace (S j + q) with (j + S q) by lia. by apply Hl. }
    exists s2, (t1 ++ t2). by eapply bind_ok.
Qed.

Lemma process_batch_inv i s s' t :
  process_batch w vsid documents i s = (Ok tt, s', t) ->
  exists ts,
    processed w vsid total i (take batch_size (drop i documents)) s s' ts /\
    t = EPrint (batch_line (i / batch_size + 1)
                  ((total + batch_size - 1) / batch_size) (length ts))
        :: concat ts
        ++ (if i + batch_size <? total then [EPrint waiting_line; ESleep 3] else []).
Proof.
  unfold process_batch. intros H.
  apply bind_ok_inv in H as ([] & s1 & t1 & t2 & Hp & H & ->).
  injection Hp as <- <-.
  apply bind_ok_inv in H as ([] & s2 & t3 & t4 & Hl & H & ->).
  apply for_enumerate_inv in Hl as (ts & Hts & ->).
  rewrite Nat.add_0_r in Hts.
  exists ts. split; [|].
  - destruct (i + batch_size <? total).
    + apply bind_ok_inv in H as ([] & s3 & t5 & t6 & H5 & H6 & ->).
      injection H5 as <- <-. injection H6 as <- <-. done.
    + injection H as <- <-. done.
  - rewrite (processed_length _ _ _ _ _ Hts). simpl. f_equal. f_equal.
    destruct (i + batch_size <? total).
    + apply bind_ok_inv in H as ([] & s3 & t5 & t6 & H5 & H6 & ->).
      injection H5 as <- <-. injection H6 as <- <-. done.
    + injection H as <- <-. done.
Qed.

Lemma process_batch_total i :
  (forall p doc s, documents !! p = Some doc ->
     exists s' t, record (p + 1) doc s = (Ok tt, s', t)) ->
  forall s, exists s' t, process_batch w vsid documents i s = (Ok tt, s', t).
Proof.
  intros Hdocs s. unfold process_batch.
  destruct (for_enumerate_total i (take batch_size (drop i documents)) 0)
    with (s := s) as (s1 & t1 & H1).
  { intros q doc s0 Hq. apply Hdocs.
    apply lookup_take_Some in Hq as [Hq _]. by rewrite lookup_drop in Hq. }
  destruct (i + batch_size <? total);
    eexists _, _; (eapply bind_ok; [reflexivity|]);
    (eapply bind_ok; [exact H1|]); reflexivity.
Qed.

Lemma for_each_batches_total starts :
  (forall p doc s, documents !! p = Some doc ->
     exists s' t, record (p + 1) doc s = (Ok tt, s', t)) ->
  forall s, exists s' t,
    for_each (process_batch w vsid documents) starts s = (Ok tt, s', t).
Proof.
  intros Hdocs. induction starts as [|i rest IH]; simpl; intros s.
  - by exists s, [].
  - destruct (process_batch_total i Hdocs s) as (s1 & t1 & H1).
    destruct (IH s1) as (s2 & t2 & H2).
    exists s2, (t1 ++ t2). by eapply bind_ok.
Qed.

Lemma batch_count_zero i : (total - i + batch_size - 1) / batch_size = 0 -> total <= i.
Proof.
  unfold batch_size. intros H. apply Nat.div_small_iff in H; lia.
Qed.

Lemma batch_count_succ i count :
  (total - i + batch_size - 1) / batch_size = S count ->
  i < total /\ (total - (i + batch_size) + batch_size - 1) / batch_size = count.
Proof.
  unfold batch_size. intros H.
  assert (5 * S count <= total - i + 5 - 1 < 5 * S (S count)) as Hb.
  { rewrite <- H. split.
    - apply Nat.Div0.mul_div_le.
    - apply Nat.mul_succ_div_gt. lia. }
  split; [lia|].
  symmetry. apply Nat.div_unique with (r := (total - (i + 5) + 5 - 1) - 5 * count); lia.
Qed.

Lemma for_each_batches_inv count : forall i s s' t,
  (total - i + batch_size - 1) / batch_size = count ->
  for_each (process_batch w vsid documents) (range_from count i batch_size) s
  = (Ok tt, s', t) ->
  exists ts,
    processed w vsid total i (drop i documents) s s' ts /\
    t = weave count i total ts.
Proof.
  induction count as [|count IH]; simpl; intros i s s' t Hcount H.
  - injection H as <- <-. exists []. split; [|done].
    rewrite drop_ge; [constructor|]. by apply batch_count_zero.
  - apply batch_count_succ in Hcount as [Hi Hcount].
    apply bind_ok_inv in H as ([] & s1 & t1 & t2 & Hb & Hrest & ->).
    apply process_batch_inv in Hb as (ts1 & Hts1 & ->).
    apply IH in Hrest as (ts2 & Hts2 & ->); [|done].
    pose proof (processed_length _ _ _ _ _ Hts1) as Hlen1.
    rewrite length_take, length_drop in Hlen1.
    assert (take batch_size (ts1 ++ ts2) = ts1 /\ drop batch_size (ts1 ++ ts2) = ts2)
      as [Htake Hdrop].
    { destruct (decide (length ts1 = batch_size)) as [Hfull|Hshort].
      - split; [by apply take_app_length' | by apply drop_app_length'].
      - assert (total <= i + batch_size) as Hend by (unfold batch_size in *; lia).
        rewrite drop_ge in Hts2 by done. inversion Hts2; subst.
        rewrite app_nil_r. split; [apply take_ge | apply drop_ge]; lia. }
    exists (ts1 ++ ts2). split.
    + rewrite <- (take_drop batch_size (drop i documents)).
      eapply processed_app; [exact Hts1|].
      rewrite drop_drop.
      destruct (decide (length ts1 = batch_size)) as [Hfull|Hshort].
      * by rewrite length_take, length_drop, <- Hlen1, Hfull.
      * assert (total <= i + batch_size) as Hend by (unfold batch_size in *; lia).
        rewrite (drop_ge documents (i + batch_size)) in Hts2 |- * by done.
        inversion Hts2; subst. constructor.
    + simpl. rewrite Htake, Hdrop. by rewrite <- !app_assoc.
Qed.

(** The whole loop, when it ends: the records were processed in order from
    counters at zero, and the trace is theirs woven into the batches. *)
Lemma process_documents_inv s s' t :
  process_documents w vsid documents s = (Ok tt, s', t) ->
  exists s0 ts,
    disk s0 = disk s /\ success_count s0 = 0 /\ error_count s0 = 0 /\
    processed w vsid total 0 documents s0 s' ts /\
    t = weave ((total + batch_size - 1) / batch_size) 0 total ts.
Proof.
  unfold process_documents, range. intros H.
  apply bind_ok_inv in H as ([] & s0 & t0 & t1 & H0 & H & ->).
  injection H0 as <- <-.
  rewrite Nat.sub_0_r in H.
  apply for_each_batches_inv in H as (ts & Hts & ->); [|by rewrite Nat.sub_0_r].
  rewrite drop_0 in Hts. eexists _, ts.
  split; [|split; [|split; [|split; [exact Hts|]]]]; reflexivity.
Qed.

Lemma process_documents_total :
  (forall p doc s, documents !! p = Some doc ->
     exists s' t, record (p + 1) doc s = (Ok tt, s', t)) ->
  forall s, exists s' t, process_documents w vsid documents s = (Ok tt, s', t).
Proof.
  intros Hdocs s. unfold process_documents.
  destruct (for_each_batches_total (range 0 total batch_size) Hdocs
              {| disk := disk s; metadata := metadata s;
                 success_count := 0; error_count := 0 |}) as (s' & t & H).
  exists s', ([] ++ t). by eapply bind_ok.
Qed.

End Loops.

(** ** The run as a whole *)

Section Run.

Variable w : world.
Variable vsid : string.
Variable documents : list json.

Local Abbreviation total := (length documents).

(** Each record that is processed moves one counter by one and prints one
    outcome line. *)
Lemma processed_outcomes p l s s' ts :
  processed w vsid total p l s s' ts ->
  success_count s' + error_count s' = success_count s + error_count s + length l /\
  Forall (fun t => shape t = [TRecord]) ts.
Proof.
  induction 1 as [p s|p doc rest s s1 s2 t ts Hdoc Hrest [IHc IHs]]; simpl.
  - split; [lia | constructor].
  - apply process_record_inv in Hdoc as (Hcount & Hshape & _).
    split; [lia | by constructor].
Qed.

Lemma all_records_lookup check l : forall p q doc,
  all_records check p l = true -> l !! q = Some doc -> check (p + q + 1) doc = true.
Proof.
  induction l as [|d rest IH]; intros p q doc Hall Hq; [done|].
  simpl in Hall. apply andb_true_iff in Hall as [Hd Hrest].
  destruct q as [|q]; simpl in Hq.
  - injection Hq as <-. by replace (p + 0 + 1) with (S p) by lia.
  - replace (p + S q + 1) with (S p + q + 1) by lia. by eapply IH.
Qed.

Lemma processed_one_failure k p l s s' ts :
  processed w vsid total p l s s' ts ->
  all_records (one_failure w k) p l = true ->
  let hit := if bool_decide (p < k <= p + length l) then 1 else 0 in
  success_count s' + hit = success_count s + length l /\
  error_count s' = error_count s + hit /\
  (forall i, p < i <= p + length l -> i <> k ->
     exists ticket file_id,
       In (EPrint (success_line i total ticket file_id)) (concat ts)) /\
  (p < k <= p + length l ->
     exists ticket e, In (EPrintError k total ticket e) (concat ts)).
Proof.
  induction 1 as [p s|p doc rest s s1 s2 t ts Hdoc Hrest IH]; simpl; intros Hall.
  - rewrite bool_decide_eq_false_2 by lia. repeat split; try lia.
  - apply andb_true_iff in Hall as [Hd Hall]. specialize (IH Hall).
    simpl in IH. destruct IH as (IHs & IHe & IHok & IHko).
    unfold one_failure in Hd. destruct (Nat.eqb_spec (S p) k) as [<-|Hne].
    + destruct (fails_in_api_call_run w vsid total (S p) doc s Hd)
        as (s1' & t' & ticket & e & Hrun & Hs & He & Hin).
      rewrite Hrun in Hdoc. injection Hdoc as <- <-.
      rewrite bool_decide_eq_false_2 in IHs, IHe by lia.
      rewrite bool_decide_eq_true_2 by lia.
      split; [lia|]. split; [lia|]. split.
      * intros i Hi Hik. destruct (IHok i) as (tk & fid & Hin'); [lia|done|].
        exists tk, fid. apply in_or_app. by right.
      * intros _. exists ticket, e. apply in_or_app. by left.
    + destruct (uploads_run w vsid total (S p) doc s Hd)
        as (s1' & t' & ticket & fid & Hrun & Hs & He & Hin).
      rewrite Hrun in Hdoc. injection Hdoc as <- <-.
      destruct (decide (S p < k <= S p + length rest)) as [Hk|Hk].
      * rewrite bool_decide_eq_true_2 in IHs, IHe by done.
        rewrite bool_decide_eq_true_2 by lia.
        split; [lia|]. split; [lia|]. split.
        -- intros i Hi Hik. destruct (decide (i = S p)) as [->|Hip].
           ++ exists ticket, fid. apply in_or_app. by left.
           ++ destruct (IHok i) as (tk & fid' & Hin'); [lia|done|].
              exists tk, fid'. apply in_or_app. by right.
        -- intros _. destruct (IHko Hk) as (tk & e & Hin').
           exists tk, e. apply in_or_app. by right.
      * rewrite bool_decide_eq_false_2 in IHs, IHe by done.
        rewrite bool_decide_eq_false_2 by lia.
        split; [lia|]. split; [lia|]. split.
        -- intros i Hi Hik. destruct (decide (i = S p)) as [->|Hip].
           ++ exists ticket, fid. apply in_or_app. by left.
           ++ destruct (IHok i) as (tk & fid' & Hin'); [lia|done|].
              exists tk, fid'. apply in_or_app. by right.
        -- intros Hk'. lia.
Qed.

(** The outer loop drops nothing of what the records did. *)
Lemma weave_records e count : forall i ts,
  length ts <= count * batch_size ->
  In e (concat ts) -> In e (weave count i total ts).
Proof.
  induction count as [|count IH]; intros i ts Hlen Hin; cbn [weave].
  - destruct ts; [done | simpl in Hlen; lia].
  - right. rewrite <- (take_drop batch_size ts), concat_app in Hin.
    apply in_app_or in Hin as [Hin|Hin]; apply in_or_app; [by left|right].
    apply in_or_app. right. apply IH; [|done].
    rewrite length_drop. unfold batch_size in *. lia.
Qed.

Lemma batches_cover n : n <= (n + batch_size - 1) / batch_size * batch_size.
Proof.
  unfold batch_size.
  pose proof (Nat.div_mod_eq (n + 5 - 1) 5) as Hd.
  pose proof (Nat.mod_upper_bound (n + 5 - 1) 5). lia.
Qed.

(** The report on a run that processed something. *)
Lemma report_run s :
  documents <> [] ->
  exists rate,
    success_rate (success_count s) total = Ok rate /\
    report vsid documents s
    = (Ok tt, s,
       [EPrint "
🎉 Upload completed!"; EPrint "
📊 Results:";
        EPrint ("   Total documents: " +:+ str_nat total);
        EPrint ("   Successfully uploaded: " +:+ str_nat (success_count s));
        EPrint ("   Errors: " +:+ str_nat (error_count s));
        EPrint ("   Success rate: " +:+ rate +:+ "%");
        EPrint ("
🔗 Vector Store ID: " +:+ vsid);
        EPrint "📁 Files uploaded with purpose: assistants";
        EPrint "
✅ Your RAG system is now ready to use the enhanced cancellation data!"]).
Proof.
  intros Hne. unfold success_rate, true_divide, report.
  destruct documents as [|d l]; [done|]. simpl. eexists. split; reflexivity.
Qed.

End Run.

(** ** Binary64 arithmetic, to within an ulp *)

Section Binary64.

Local Open Scope Z_scope.

Lemma digits2_pos_size p : digits2_pos p = Pos.size p.
Proof. induction p as [p IH|p IH|]; simpl; by rewrite ?IH. Qed.

Lemma digits2_bounds p :
  2 ^ (Z.pos (digits2_pos p) - 1) <= Z.pos p < 2 ^ Z.pos (digits2_pos p).
Proof.
  rewrite digits2_pos_size. split.
  - pose proof (Pos.size_le p) as H.
    apply Pos2Z.pos_le_pos in H. rewrite Pos2Z.inj_pow in H.
    replace (Z.pos (Pos.size p)) with (Z.pos (Pos.size p) - 1 + 1) in H by lia.
    rewrite Z.pow_add_r in H by lia. lia.
  - pose proof (Pos.size_gt p) as H.
    apply Pos2Z.pos_lt_pos in H. by rewrite Pos2Z.inj_pow in H.
Qed.

Lemma digits2_unique p d :
  2 ^ (d - 1) <= Z.pos p < 2 ^ d -> Z.pos (digits2_pos p) = d.
Proof.
  intros [Hlo Hhi]. pose proof (digits2_bounds p) as [Hlo' Hhi'].
  assert (0 < d).
  { destruct (Z.lt_ge_cases 0 d) as [|Hd]; [done|].
    assert (2 ^ d <= 2 ^ 0) by (apply Z.pow_le_mono_r; lia). simpl in *. lia. }
  destruct (Z.lt_trichotomy (Z.pos (digits2_pos p)) d) as [Hlt|[Heq|Hgt]]; [|done|].
  - assert (2 ^ Z.pos (digits2_pos p) <= 2 ^ (d - 1)) by (apply Z.pow_le_mono_r; lia).
    lia.
  - assert (2 ^ d <= 2 ^ (Z.pos (digits2_pos p) - 1)) by (apply Z.pow_le_mono_r; lia).
    lia.
Qed.

Lemma shr_1_m mrs : 0 <= shr_m mrs -> shr_m (shr_1 mrs) = shr_m mrs / 2.
Proof.
  destruct mrs as [m r s]. simpl. intros Hm.
  destruct m as [|[p|p|]|p]; cbn [shr_m]; try lia; try reflexivity.
  - apply Z.div_unique with 1; lia.
  - apply Z.div_unique with 0; lia.
Qed.

Lemma shr_1_nonneg mrs : 0 <= shr_m mrs -> 0 <= shr_m (shr_1 mrs).
Proof.
  intros H. rewrite shr_1_m by done. apply Z.div_pos; lia.
Qed.

Lemma iter_shr_m p : forall mrs,
  0 <= shr_m mrs ->
  shr_m (SpecFloat.iter_pos shr_1 p mrs) = shr_m mrs / 2 ^ Z.pos p.
Proof.
  induction p as [p IH|p IH|]; intros mrs Hm; simpl SpecFloat.iter_pos.
  - assert (0 <= shr_m (shr_1 mrs)) as H1 by by apply shr_1_nonneg.
    assert (0 <= shr_m (SpecFloat.iter_pos shr_1 p (shr_1 mrs))) as H2.
    { rewrite IH by done. apply Z.div_pos; lia. }
    rewrite IH, IH, shr_1_m by done.
    rewrite !Z.div_div by lia. f_equal.
    replace (Z.pos p~1) with (1 + Z.pos p + Z.pos p) by lia.
    rewrite !Z.pow_add_r by lia. lia.
  - assert (0 <= shr_m (SpecFloat.iter_pos shr_1 p mrs)) as H2.
    { rewrite IH by done. apply Z.div_pos; lia. }
    rewrite IH, IH by done.
    rewrite !Z.div_div by lia. f_equal.
    replace (Z.pos p~0) with (Z.pos p + Z.pos p) by lia.
    rewrite !Z.pow_add_r by lia. lia.
  - rewrite shr_1_m by done. done.
Qed.

Lemma round_nearest_even_bounds m l :
  m <= round_nearest_even m l <= m + 1.
Proof.
  unfold round_nearest_even. destruct l as [|[]]; try lia.
  destruct (Z.even m); lia.
Qed.

Lemma shr_record_of_loc_m m l : shr_m (shr_record_of_loc m l) = m.
Proof. by destruct l as [|[]]. Qed.

(** Shifting a mantissa of [d >= 53] digits down to 53. *)
Lemma shr_fexp_m p ex l :
  let d := Z.pos (digits2_pos p) in
  53 <= d -> -1074 <= d + ex - 53 ->
  exists mrs,
    shr_fexp prec emax (Z.pos p) ex l = (mrs, ex + (d - 53)) /\
    shr_m mrs = Z.pos p / 2 ^ (d - 53).
Proof.
  intros d Hd He. unfold shr_fexp, shr, fexp, emin, prec, emax. simpl Zdigits2.
  fold d.
  replace (Z.max (d + ex - 53) (3 - 1024 - 53) - ex) with (d - 53) by lia.
  destruct (d - 53) as [|n|n] eqn:Hn; try lia.
  - eexists. split; [by rewrite Z.add_0_r|].
    rewrite shr_record_of_loc_m. simpl. by rewrite Z.div_1_r.
  - eexists. split; [reflexivity|].
    rewrite iter_shr_m by (rewrite shr_record_of_loc_m; lia).
    by rewrite shr_record_of_loc_m.
Qed.


Lemma div_pow2_bounds a n d :
  0 <= n -> 0 <= d -> 2 ^ (d + n) <= a < 2 ^ (d + 1 + n) ->
  2 ^ d <= a / 2 ^ n < 2 ^ (d + 1).
Proof.
  intros Hn Hd [Hlo Hhi].
  assert (0 < 2 ^ n) by (apply Z.pow_pos_nonneg; lia).
  rewrite Z.pow_add_r in Hlo, Hhi by lia. split.
  - apply Z.div_le_lower_bound; lia.
  - apply Z.div_lt_upper_bound; lia.
Qed.

(** Rounding a mantissa of [53 + n] digits: the result is normal, and its
    mantissa is the shifted one or the next. *)
Lemma binary_round_aux_bounds sx p ex l n :
  Z.pos (digits2_pos p) = 53 + n -> 0 <= n ->
  -1074 <= ex + n -> ex + n + 1 <= 971 ->
  exists m k,
    binary_round_aux prec emax sx (Z.pos p) ex l = S754_finite sx m (ex + n + k) /\
    (k = 0 \/ k = 1) /\
    2 ^ 52 <= Z.pos m < 2 ^ 53 /\
    Z.pos p / 2 ^ n <= Z.pos m * 2 ^ k <= Z.pos p / 2 ^ n + 1.
Proof.
  intros Hd Hn Hlo Hhi.
  pose proof (digits2_bounds p) as Hp. rewrite Hd in Hp.
  assert (2 ^ 52 <= Z.pos p / 2 ^ n < 2 ^ 53) as Hm1.
  { apply (div_pow2_bounds (Z.pos p) n 52); [lia|lia|].
    by replace (52 + n) with (53 + n - 1) by lia. }
  unfold binary_round_aux.
  destruct (shr_fexp_m p ex l) as (mrs & -> & Hmrs); [lia|lia|].
  rewrite Hd in Hmrs |- *. replace (53 + n - 53) with n in Hmrs |- * by lia.
  pose proof (round_nearest_even_bounds (shr_m mrs) (loc_of_shr_record mrs)) as Hr.
  set (r := round_nearest_even (shr_m mrs) (loc_of_shr_record mrs)) in *.
  rewrite Hmrs in Hr.
  destruct r as [|pr|pr] eqn:Er; [lia| |lia].
  destruct (Z.lt_ge_cases (Z.pos pr) (2 ^ 53)) as [Hlt|Hge].
  - assert (Z.pos (digits2_pos pr) = 53) as Hdr by (apply digits2_unique; simpl; lia).
    destruct (shr_fexp_m pr (ex + n) loc_Exact) as (mrs2 & -> & Hmrs2).
    { rewrite Hdr. lia. } { rewrite Hdr. lia. }
    rewrite Hdr in Hmrs2 |- *. simpl in Hmrs2. rewrite Z.div_1_r in Hmrs2.
    rewrite Hmrs2. unfold emax, prec.
    destruct (Z.leb_spec (ex + n + (53 - 53)) (1024 - 53)) as [_|]; [|lia].
    exists pr, 0. replace (ex + n + (53 - 53)) with (ex + n + 0) by lia.
    split; [done|]. split; [by left|]. split; [lia|]. rewrite Z.mul_1_r. lia.
  - assert (Z.pos pr = 2 ^ 53) as Hpr by lia.
    assert (Z.pos (digits2_pos pr) = 54) as Hdr by (apply digits2_unique; simpl; lia).
    destruct (shr_fexp_m pr (ex + n) loc_Exact) as (mrs2 & -> & Hmrs2).
    { rewrite Hdr. lia. } { rewrite Hdr. lia. }
    rewrite Hdr in Hmrs2 |- *. rewrite Hpr in Hmrs2.
    change (2 ^ 53 / 2 ^ (54 - 53)) with (2 ^ 52) in Hmrs2.
    rewrite Hmrs2. 
    destruct (2 ^ 52) as [|q|q] eqn:Eq; [done| |done].
    unfold emax, prec.
    destruct (Z.leb_spec (ex + n + (54 - 53)) (1024 - 53)) as [_|]; [|lia].
    exists q, 1. replace (ex + n + (54 - 53)) with (ex + n + 1) by lia.
    split; [done|]. split; [by right|].
    change (2 ^ 1) with 2. lia.
Qed.


(** A mantissa of 53 digits with nothing to round stays as it is. *)
Lemma binary_round_aux_exact sx p ex :
  Z.pos (digits2_pos p) = 53 -> -1074 <= ex <= 971 ->
  binary_round_aux prec emax sx (Z.pos p) ex loc_Exact = S754_finite sx p ex.
Proof.
  intros Hd He.
  assert (shr_fexp prec emax (Z.pos p) ex loc_Exact
          = (shr_record_of_loc (Z.pos p) loc_Exact, ex)) as Hshr.
  { unfold shr_fexp, shr, fexp, emin, prec, emax. simpl Zdigits2. rewrite Hd.
    by replace (Z.max (53 + ex - 53) (3 - 1024 - 53) - ex) with 0 by lia. }
  unfold binary_round_aux. rewrite Hshr. cbn [shr_record_of_loc shr_m
    loc_of_shr_record round_nearest_even]. rewrite Hshr. cbn [shr_record_of_loc shr_m].
  unfold emax, prec. by destruct (Z.leb_spec ex (1024 - 53)) as [_|]; [|lia].
Qed.

Lemma iter_xO p s : Z.pos (Pos.iter xO p s) = Z.pos p * 2 ^ Z.pos s.
Proof.
  induction s as [|s IH] using Pos.peano_ind.
  - simpl. lia.
  - rewrite Pos.iter_succ, Pos2Z.inj_xO, IH, Pos2Z.inj_succ, Z.pow_succ_r by lia. lia.
Qed.

(** An [int] below 2^53 is a float: its digits, moved up to the top of the
    53 of the mantissa. *)
Lemma float_of_nat_exact n :
  (0 < n)%nat -> Z.of_nat n < 2 ^ 53 ->
  exists m k,
    float_of_nat n = S754_finite false m (- k) /\
    0 <= k <= 52 /\
    Z.pos m = Z.of_nat n * 2 ^ k /\
    Z.pos (digits2_pos m) = 53.
Proof.
  intros Hpos Hlt. unfold float_of_nat.
  destruct (Z.of_nat n) as [|p|p] eqn:Hn; [lia| |lia].
  pose proof (digits2_bounds p) as Hp.
  set (d := Z.pos (digits2_pos p)) in *.
  assert (0 < d) by done.
  assert (d <= 53).
  { destruct (Z.le_gt_cases d 53) as [|Hgt]; [done|].
    assert (2 ^ 53 <= 2 ^ (d - 1)) by (apply Z.pow_le_mono_r; lia). lia. }
  unfold binary_normalize, binary_round, shl_align, fexp, emin, prec, emax. fold d.
  replace (Z.max (d + 0 - 53) (3 - 1024 - 53) - 0) with (d - 53) by lia.
  destruct (d - 53) as [|s|s] eqn:Hs; [|lia|].
  - exists p, 0. rewrite binary_round_aux_exact by (fold d; lia).
    split; [done|]. split; [lia|]. split; [lia|]. fold d. lia.
  - replace (Z.max (d + 0 - 53) (3 - 1024 - 53)) with (- Z.pos s) by lia.
    assert (Z.pos (digits2_pos (Pos.iter xO p s)) = 53) as Hd.
    { apply digits2_unique. change (53 - 1) with 52. rewrite iter_xO.
      replace (Z.pos s) with (53 - d) by lia.
      assert (2 ^ 52 = 2 ^ (d - 1) * 2 ^ (53 - d)) as ->.
      { rewrite <- Z.pow_add_r by lia. f_equal. lia. }
      assert (2 ^ 53 = 2 ^ d * 2 ^ (53 - d)) as ->.
      { rewrite <- Z.pow_add_r by lia. f_equal. lia. }
      assert (0 < 2 ^ (53 - d)) by (apply Z.pow_pos_nonneg; lia).
      split; [apply Z.mul_le_mono_nonneg_r|apply Z.mul_lt_mono_pos_r]; lia. }
    exists (Pos.iter xO p s), (Z.pos s).
    rewrite binary_round_aux_exact by (done || lia).
    split; [done|]. split; [lia|]. split; [apply iter_xO|done].
Qed.

Lemma float_of_nat_100 :
  float_of_nat 100 = S754_finite false 7036874417766400 (-46).
Proof. reflexivity. Qed.


Lemma SFdiv_core_binary_normal m1 e1 m2 e2 :
  Z.pos (digits2_pos m1) = 53 -> Z.pos (digits2_pos m2) = 53 ->
  -1021 <= e1 - e2 ->
  SFdiv_core_binary prec emax (Z.pos m1) e1 (Z.pos m2) e2
  = (Z.pos m1 * 2 ^ 53 / Z.pos m2, e1 - e2 - 53,
     new_location (Z.pos m2) ((Z.pos m1 * 2 ^ 53) mod Z.pos m2)).
Proof.
  intros Hd1 Hd2 He.
  unfold SFdiv_core_binary, fexp, emin, prec, emax. simpl Zdigits2.
  rewrite Hd1, Hd2.
  replace (Z.min (Z.max (53 + e1 - (53 + e2) - 53) (3 - 1024 - 53)) (e1 - e2))
    with (e1 - e2 - 53) by lia.
  replace (e1 - e2 - (e1 - e2 - 53)) with 53 by lia.
  rewrite Z.shiftl_mul_pow2 by lia.
  unfold Z.div, Z.modulo.
  by destruct (Z.div_eucl (Z.pos m1 * 2 ^ 53) (Z.pos m2)).
Qed.

(** [(N - 1) / N] for [N] beyond 2000: a float within 2^-53 of the
    quotient, so between 2000/2001 and 1. *)
Lemma true_divide_close N :
  (2000 < N)%nat -> Z.of_nat N < 2 ^ 53 ->
  exists m k,
    SFdiv prec emax (float_of_nat (N - 1)) (float_of_nat N)
    = S754_finite false m (-53 + k) /\
    (k = 0 \/ k = 1) /\
    2 ^ 52 <= Z.pos m < 2 ^ 53 /\
    2000 * 2 ^ 53 < 2001 * (Z.pos m * 2 ^ k + 1) /\
    Z.pos m * 2 ^ k <= 2 ^ 53.
Proof.
  intros HN Hlt.
  destruct (float_of_nat_exact (N - 1)) as (m1 & k1 & -> & Hk1 & Hm1 & Hd1); [lia|lia|].
  destruct (float_of_nat_exact N) as (m2 & k2 & -> & Hk2 & Hm2 & Hd2); [lia|lia|].
  rewrite Nat2Z.inj_sub in Hm1 by lia. change (Z.of_nat 1) with 1 in Hm1.
  set (n := Z.of_nat N) in *.
  assert (2000 < n) as Hn by lia.
  pose proof (digits2_bounds m1) as Hb1. rewrite Hd1 in Hb1.
  pose proof (digits2_bounds m2) as Hb2. rewrite Hd2 in Hb2.
  change (53 - 1) with 52 in Hb1, Hb2.
  assert (0 < 2 ^ k2) as HP2 by (apply Z.pow_pos_nonneg; lia).
  (* the two exponents differ by at most one *)
  assert (k1 = k2 \/ k1 = k2 + 1) as Hdelta.
  { destruct (Z.lt_trichotomy k1 k2) as [Hlt'|[->|Hgt]]; [exfalso|by left|].
    - assert (2 ^ (k1 + 1) <= 2 ^ k2) as Hpow by (apply Z.pow_le_mono_r; lia).
      rewrite Z.pow_add_r in Hpow by lia. change (2 ^ 1) with 2 in Hpow.
      assert (0 < 2 ^ k1) by (apply Z.pow_pos_nonneg; lia).
      nia.
    - destruct (Z.eq_dec k1 (k2 + 1)) as [|Hne]; [by right|exfalso].
      assert (2 ^ (k2 + 2) <= 2 ^ k1) as Hpow by (apply Z.pow_le_mono_r; lia).
      rewrite Z.pow_add_r in Hpow by lia. change (2 ^ 2) with 4 in Hpow.
      nia. }
  unfold SFdiv. rewrite SFdiv_core_binary_normal by (done || lia).
  set (q := Z.pos m1 * 2 ^ 53 / Z.pos m2).
  assert (Z.pos m2 * q <= Z.pos m1 * 2 ^ 53 < Z.pos m2 * (q + 1)) as Hq.
  { split; [apply Z.mul_div_le|apply Z.mul_succ_div_gt]; lia. }
  set (delta := k1 - k2).
  assert (2 ^ k1 = 2 ^ delta * 2 ^ k2) as Hk.
  { rewrite <- Z.pow_add_r by lia. f_equal. lia. }
  assert (n * q <= (n - 1) * 2 ^ delta * 2 ^ 53 < n * (q + 1)) as Hq'.
  { rewrite Hm1, Hm2, Hk in Hq. split.
    - apply (Z.mul_le_mono_pos_r _ _ (2 ^ k2)); lia.
    - apply (Z.mul_lt_mono_pos_r (2 ^ k2)); lia. }
  clearbody q. clear Hq.
  assert (2 ^ (52 + delta) <= q < 2 ^ (53 + delta)) as Hqb.
  { rewrite !(Z.pow_add_r _ _ delta) by lia.
    assert (0 < 2 ^ delta) by (apply Z.pow_pos_nonneg; lia).
    split; nia. }
  assert (0 < 2 ^ delta) as HPd by (apply Z.pow_pos_nonneg; lia).
  assert (0 < 2 ^ (52 + delta)) by (apply Z.pow_pos_nonneg; lia).
  destruct q as [|pq|pq]; [lia| |lia].
  assert (Z.pos (digits2_pos pq) = 53 + delta) as Hdq.
  { apply digits2_unique. by replace (53 + delta - 1) with (52 + delta) by lia. }
  destruct (binary_round_aux_bounds (xorb false false) pq (- k1 - - k2 - 53)
              (new_location (Z.pos m2) ((Z.pos m1 * 2 ^ 53) mod Z.pos m2)) delta)
    as (m & k & -> & Hk01 & Hmb & Hv); [done|lia|lia|lia|].
  exists m, k. replace (- k1 - - k2 - 53 + delta + k) with (-53 + k) by lia.
  split; [done|]. split; [done|]. split; [done|].
  set (qq := Z.pos pq / 2 ^ delta) in *.
  assert (2 ^ delta * qq <= Z.pos pq < 2 ^ delta * (qq + 1)) as Hqq.
  { split; [apply Z.mul_div_le|apply Z.mul_succ_div_gt]; lia. }
  clearbody qq. rewrite (Z.pow_add_r _ _ delta) in Hqb by lia.
  assert (qq < 2 ^ 53) as Hup by nia.
  assert (n * (Z.pos pq + 1) <= n * (2 ^ delta * (qq + 1))) as H1
    by (apply Z.mul_le_mono_nonneg_l; lia).
  assert ((n - 1) * 2 ^ 53 * 2 ^ delta < n * (qq + 1) * 2 ^ delta) as H2 by lia.
  apply Z.mul_lt_mono_pos_r in H2; [|lia].
  set (t := 2 ^ 53 - (qq + 1)).
  assert (n * t < 2 ^ 53) as Hlow by (unfold t; lia).
  destruct (Z.le_gt_cases t 0) as [|Ht]; [unfold t in *; lia|].
  assert (2001 * t <= n * t) by (apply Z.mul_le_mono_nonneg_r; lia).
  unfold t in *. lia.
Qed.


Lemma round_half_even_1000 n d :
  0 < d -> 1999 * d < 2 * n < 2001 * d -> round_half_even n d = 1000.
Proof.
  intros Hd [Hlo Hhi]. unfold round_half_even.
  pose proof (Z.div_mod n d ltac:(lia)) as Hn.
  pose proof (Z.mod_pos_bound n d Hd) as Hr.
  set (q := n / d) in *. set (r := n mod d) in *.
  assert (q = 999 \/ q = 1000) as [Hq|Hq].
  { assert (998 < q) by nia. assert (q < 1001) by nia. lia. }
  - rewrite Hq in *. destruct (Z.compare_spec (2 * r) d); lia.
  - rewrite Hq in *. destruct (Z.compare_spec (2 * r) d); lia.
Qed.

(** A float between 2000/2001 and 1, times 100, prints as [100.0]. *)
Lemma times_100_prints m k :
  k = 0 \/ k = 1 ->
  2 ^ 52 <= Z.pos m < 2 ^ 53 ->
  2000 * 2 ^ 53 < 2001 * (Z.pos m * 2 ^ k + 1) ->
  Z.pos m * 2 ^ k <= 2 ^ 53 ->
  format_1f (SFmul prec emax (S754_finite false m (-53 + k)) (float_of_nat 100))
  = "100.0"%string.
Proof.
  intros [->| ->] Hm Hlo Hhi.
  - rewrite Z.pow_0_r, Z.mul_1_r in Hlo, Hhi.
    rewrite float_of_nat_100. unfold SFmul.
    set (mx := (m * 7036874417766400)%positive).
    assert (Z.pos mx = Z.pos m * 7036874417766400) as Hmx by done.
    destruct (binary_round_aux_bounds (xorb false false) mx (-53 + 0 + -46) loc_Exact 53)
      as (m' & k' & -> & Hk' & Hm' & Hv); [|lia|lia|lia|].
    { apply digits2_unique. rewrite Hmx. lia. }
    set (y := Z.pos mx / 2 ^ 53) in *.
    assert (2 ^ 53 * y <= Z.pos mx < 2 ^ 53 * (y + 1)) as Hy.
    { split; [apply Z.mul_div_le|apply Z.mul_succ_div_gt]; lia. }
    clearbody y. rewrite Hmx in Hy.
    destruct Hk' as [->| ->]; [|lia].
    rewrite Z.pow_0_r, Z.mul_1_r in Hv.
    change (-53 + 0 + -46 + 53 + 0) with (-46).
    unfold format_1f. rewrite round_half_even_1000; [reflexivity|done|].
    change (Z.pow_pos 2 46) with (2 ^ 46). lia.
  - change (2 ^ 1) with 2 in *.
    assert (m = 4503599627370496%positive) as -> by lia.
    reflexivity.
Qed.


Lemma exact_rate_beyond_2000 N :
  (2000 < N)%nat -> exact_rate (N - 1) N = "100.0"%string.
Proof.
  intros HN. unfold exact_rate.
  rewrite round_half_even_1000; [reflexivity|lia|lia].
Qed.

Lemma success_rate_beyond_2000 N :
  (2000 < N)%nat -> Z.of_nat N < 2 ^ 53 ->
  success_rate (N - 1) N = Ok "100.0"%string.
Proof.
  intros HN Hlt. unfold success_rate, true_divide.
  destruct (Nat.eqb_spec N 0) as [|_]; [lia|]. cbn [rbind].
  destruct (true_divide_close N HN Hlt) as (m & k & -> & Hk & Hm & Hlo & Hhi).
  by rewrite times_100_prints.
Qed.

Lemma success_rate_table :
  forallb (fun n => match success_rate (n - 1) n with
                    | Ok rate => String.eqb rate (exact_rate (n - 1) n)
                    | Raise _ => false
                    end) (seq 1 2000) = true.
Proof. vm_compute. reflexivity. Qed.

(** With one failure among [N] records the floats print the rate as the
    exact percentage rounds to one decimal. *)
Lemma success_rate_one_failure N :
  (1 <= N)%nat -> Z.of_nat N < 2 ^ 53 ->
  success_rate (N - 1) N = Ok (exact_rate (N - 1) N).
Proof.
  intros H1 Hlt. destruct (Nat.le_gt_cases N 2000) as [Hle|Hgt].
  - pose proof success_rate_table as Htable.
    rewrite forallb_forall in Htable. specialize (Htable N).
    destruct (success_rate (N - 1) N) as [rate|e].
    + f_equal. apply String.eqb_eq, Htable, in_seq. lia.
    + discriminate Htable. apply in_seq. lia.
  - by rewrite success_rate_beyond_2000, exact_rate_beyond_2000.
Qed.


(** [round_half_even n d] is an integer nearest to [n / d]. *)
Lemma round_half_even_nearest n d :
  0 < d -> 2 * Z.abs (round_half_even n d * d - n) <= d.
Proof.
  intros Hd. unfold round_half_even.
  pose proof (Z.div_mod n d ltac:(lia)) as Hn.
  pose proof (Z.mod_pos_bound n d Hd) as Hr.
  set (q := n / d) in *. set (r := n mod d) in *.
  assert ((q + 1) * d = d * q + d) as Hq by lia.
  destruct (Z.compare_spec (2 * r) d); [destruct (Z.even q)| |]; lia.
Qed.

(** The rate of one failure among [N] records, as printed: the tenths of a
    percent nearest to [(N - 1) / N * 100], with a point before the last
    digit. *)
Lemma success_rate_nearest N :
  (1 <= N)%nat -> Z.of_nat N < 2 ^ 53 ->
  exists tenths,
    2 * Z.abs (tenths * Z.of_nat N - 1000 * Z.of_nat (N - 1)) <= Z.of_nat N /\
    success_rate (N - 1) N
    = Ok (str_int (tenths / 10) +:+ "." +:+ str_int (tenths mod 10)).
Proof.
  intros H1 Hlt.
  exists (round_half_even (Z.of_nat (N - 1) * 1000) (Z.of_nat N)). split.
  - pose proof (round_half_even_nearest (Z.of_nat (N - 1) * 1000) (Z.of_nat N)
                  ltac:(lia)). lia.
  - by rewrite success_rate_one_failure.
Qed.

End Binary64.

(** ** Standard output *)

(** A record that [json.loads] accepts and whose ticket id standard output
    refuses. *)
Lemma lone_surrogate_not_encodable :
  encodable lone_surrogate = false /\
  valid_record surrogate_ticket = true /\
  prints_go_through (sample_world Missing) 1 surrogate_ticket = false.
Proof. by vm_compute. Qed.

(** ** From the entry point to the loop *)

Section Main.

Variable w : world.

(** The loader keeps the parsed lines, in order, and only parses. *)
Lemma read_lines_run lines : forall lineno,
  forallb well_formed lines = true ->
  exists t,
    Forall (fun e => is_parse e = true) t /\
    forall documents s,
      read_lines lineno lines documents s
      = (Ok (documents ++ documents_of lines), s, t).
Proof.
  induction lines as [|l lines IH]; simpl; intros lineno Hwf.
  - exists []. split; [constructor|]. intros documents s. by rewrite app_nil_r.
  - apply andb_true_iff in Hwf as [Hl Hwf].
    destruct (IH (S lineno) Hwf) as (t & Ht & Hrun).
    destruct l as [| |doc]; [|done|].
    + exists t. split; [done|]. intros documents s. apply Hrun.
    + exists (EJsonLoads lineno :: t). split; [by constructor|].
      intros documents s. unfold bind, emit. rewrite Hrun.
      by rewrite <- app_assoc.
Qed.

(** With the configuration and the input in order, the script comes to
    its loop and its report with the documents of the file. *)
Lemma upload_to_vector_store_run id lines :
  client_error w (getenv w "OPENAI_API_KEY") = None ->
  getenv w "OPENAI_VECTOR_STORE_ID" = Some id ->
  String.eqb id "" = false ->
  input w = Lines lines ->
  forallb well_formed lines = true ->
  exists before,
    forall s r s' t,
      bind (process_documents w id (documents_of lines))
           (fun _ => report id (documents_of lines)) s = (r, s', t) ->
      upload_to_vector_store w s = (r, s', before ++ t).
Proof.
  intros Hclient Hid Hne Hin Hwf.
  destruct (read_lines_run lines 1 Hwf) as (tl & _ & Hread).
  exists ([EPrint "🔄 Uploading cancellation tickets to vector store...";
           EGetenv "OPENAI_API_KEY"; EOpenAI (getenv w "OPENAI_API_KEY");
           EGetenv "OPENAI_VECTOR_STORE_ID"; EExists input_path;
           EOpen input_path "r"]
          ++ tl
          ++ [EPrint ("Found " +:+ str_nat (length (documents_of lines))
                      +:+ " documents to upload")]).
  intros s r s' t Hrun.
  unfold upload_to_vector_store, OpenAI, os_getenv, read_documents, print, emit,
    bind, ret, raise in *.
  rewrite Hclient, Hid, Hne, Hin, Hread. cbn.
  destruct (process_documents w id (documents_of lines) s) as [[[[]|e] s1] t1].
  - destruct (report id (documents_of lines) s1) as [[r2 s2] t2].
    injection Hrun as <- <- <-. f_equal.
    rewrite <- !app_assoc. reflexivity.
  - injection Hrun as <- <- <-. f_equal.
    rewrite <- !app_assoc. reflexivity.
Qed.

End Main.

(** * The claims of the specification *)

(** C3.  A record without a [metadata] field, or whose [metadata] is the
    empty mapping, renders without raising, and the document shows
    "unknown" for the ticket id and the language, "N/A" for the subject and
    "None" for the customer concerns, the topic keywords and the
    conversation summary. *)
Theorem missing_metadata_placeholders (py_repr : json -> string) fields :
  dict_lookup fields "metadata" = None
  \/ dict_lookup fields "metadata" = Some (JObj []) ->
  exists metadata,
    get (JObj fields) "metadata" (JObj []) = Ok metadata /\
    text_content py_repr (JObj fields) metadata
    = Ok ("CANCELLATION TICKET: unknown
Subject: N/A
Language: unknown
Category: Other
Payment Issue: No
Edge Case: none
Customer Concerns: None

CONVERSATION:
" +:+ format py_repr (dict_get fields "text" (JStr "")) +:+ "

METADATA:
- Ticket ID: unknown
- Language: unknown
- Has Payment Issue: False
- Edge Case: none
- Customer Concerns: None
- Topic Keywords: None
- Conversation Summary: None
").
Proof.
  intros H. exists (JObj []). split.
  - unfold get, dict_get. destruct H as [-> | ->]; reflexivity.
  - reflexivity.
Qed.

Lemma missing_metadata_placeholders_witness :
  exists metadata,
    get plain_ticket "metadata" (JObj []) = Ok metadata /\
    text_content (fun _ => "?") plain_ticket metadata
    = Ok ("CANCELLATION TICKET: unknown
Subject: N/A
Language: unknown
Category: Other
Payment Issue: No
Edge Case: none
Customer Concerns: None

CONVERSATION:
hello

METADATA:
- Ticket ID: unknown
- Language: unknown
- Has Payment Issue: False
- Edge Case: none
- Customer Concerns: None
- Topic Keywords: None
- Conversation Summary: None
").
Proof.
  apply (missing_metadata_placeholders (fun _ => "?") [("text", JStr "hello")]).
  left. reflexivity.
Defined.



(** C5.  When the processing of a record is over, whether it ended in the
    success branch or in the handler, the transient file it opened for
    writing is not on the disk. *)
Theorem transient_file_removed w vector_store_id total global_index doc s s' t path :
  process_record w vector_store_id total global_index doc s = (Ok tt, s', t) ->
  In (EOpen path "w") t ->
  disk s' !! path = None.
Proof.
  intros Hrun Hin.
  by apply (process_record_inv w _ _ _ _ _ _ _ Hrun).
Qed.
Lemma transient_file_removed_witness :
  let done :=
    process_record second_refused_world "vs_123" 3 2 refund_ticket
      (initial_state second_refused_world) in
  disk done.1.2 !! "temp_cancellation_T-7.txt" = None.
Proof.
  intros done.
  apply (transient_file_removed second_refused_world "vs_123" 3 2 refund_ticket
           (initial_state second_refused_world) done.1.2 done.2).
  - vm_compute. reflexivity.
  - vm_compute. tauto.
Defined.

(** C10.  In a run that comes to its report, the two counts reported add
    up to the number of documents, and processing a record moves exactly one
    of the counters, by exactly one. *)
Theorem counters_add_up w vector_store_id documents s s1 t1 :
  process_documents w vector_store_id documents s = (Ok tt, s1, t1) ->
  success_count s1 + error_count s1 = length documents /\
  (exists r s2 rest,
     bind (process_documents w vector_store_id documents)
          (fun _ => report vector_store_id documents) s
     = (r, s2,
        t1 ++ [EPrint "
🎉 Upload completed!"; EPrint "
📊 Results:";
               EPrint ("   Total documents: " +:+ str_nat (length documents));
               EPrint ("   Successfully uploaded: " +:+ str_nat (success_count s1));
               EPrint ("   Errors: " +:+ str_nat (error_count s1))] ++ rest)) /\
  (forall total global_index doc sa sb t,
     process_record w vector_store_id total global_index doc sa = (Ok tt, sb, t) ->
     success_count sb = S (success_count sa) /\ error_count sb = error_count sa
     \/ success_count sb = success_count sa /\ error_count sb = S (error_count sa)).
Proof.
  intros Hrun. split; [|split].
  - apply process_documents_inv in Hrun as (s0 & ts & _ & Hs & He & Hts & _).
    apply processed_outcomes in Hts as [Hsum _]. lia.
  - unfold bind at 1. rewrite Hrun.
    unfold report, print, emit, read_success_count, read_error_count, lift, bind.
    destruct (success_rate (success_count s1) (length documents)) as [rate|e];
      eexists _, _, _; reflexivity.
  - intros total gi doc sa sb t Hdoc.
    by apply process_record_inv in Hdoc as (Hcount & _).
Qed.

Lemma counters_add_up_witness :
  let done :=
    process_documents second_refused_world "vs_123"
      [plain_ticket; refund_ticket; plain_ticket]
      (initial_state second_refused_world) in
  success_count done.1.2 + error_count done.1.2 = 3.
Proof.
  intros done.
  apply (counters_add_up second_refused_world "vs_123"
           [plain_ticket; refund_ticket; plain_ticket]
           (initial_state second_refused_world) done.1.2 done.2).
  vm_compute. reflexivity.
Defined.

Lemma shape_concat_records ts :
  Forall (fun t => shape t = [TRecord]) ts ->
  shape (concat ts) = repeat TRecord (length ts).
Proof.
  induction 1 as [|t ts Ht _ IH]; [done|].
  simpl. by rewrite shape_app, Ht, IH.
Qed.

Lemma forallb_lookup {A} (f : A -> bool) (l : list A) p x :
  forallb f l = true -> l !! p = Some x -> f x = true.
Proof.
  revert p. induction l as [|y l IH]; intros p Hall Hp; [done|].
  simpl in Hall. apply andb_true_iff in Hall as [Hy Hall].
  destruct p as [|p]; simpl in Hp; [by injection Hp as <- | by eapply IH].
Qed.

(** C2.  Twelve valid records are processed in three batches of five, five
    and two records, with a pause of three seconds after the first and after
    the second batch and none after the third.  Valid: objects with object
    (or no) metadata, whose two prints go through; and the handler's
    [os.remove] goes through. *)
Theorem twelve_records_three_batches w vector_store_id documents s :
  length documents = 12 ->
  forallb valid_record documents = true ->
  all_records (prints_go_through w) 0 documents = true ->
  (forall global_index, cleanup (attempts w global_index) = None) ->
  exists s' t,
    process_documents w vector_store_id documents s = (Ok tt, s', t) /\
    shape t
    = [TBatch "
📦 Processing batch 1/3 (5 documents)";
       TRecord; TRecord; TRecord; TRecord; TRecord; TWait; TSleep 3;
       TBatch "
📦 Processing batch 2/3 (5 documents)";
       TRecord; TRecord; TRecord; TRecord; TRecord; TWait; TSleep 3;
       TBatch "
📦 Processing batch 3/3 (2 documents)";
       TRecord; TRecord].
Proof.
  intros Hlen Hvalid _ Hclean.
  destruct (process_documents_total w vector_store_id documents) with (s := s)
    as (s' & t & Hrun).
  { intros p doc s0 Hp. apply process_record_total; [|done].
    by eapply forallb_lookup. }
  exists s', t. split; [done|].
  apply process_documents_inv in Hrun as (s0 & ts & _ & _ & _ & Hts & ->).
  pose proof (processed_length _ _ _ _ _ _ _ _ Hts) as Hn.
  apply processed_outcomes in Hts as [_ Hshape].
  rewrite Hlen in Hn |- *.
  change ((12 + batch_size - 1) / batch_size) with 3.
  do 12 (destruct ts as [|? ts]; [discriminate Hn|]).
  destruct ts; [clear Hn | discriminate Hn].
  repeat match goal with
         | H : Forall _ (_ :: _) |- _ => apply Forall_cons in H as [? H]
         end.
  simpl.
  repeat first
    [ rewrite shape_app | rewrite shape_cons | rewrite classify_batch_line
    | rewrite classify_waiting_line
    | match goal with H : shape _ = _ |- _ => rewrite H end ].
  reflexivity.
Qed.

Lemma twelve_records_three_batches_witness :
  exists s' t,
    process_documents (sample_world Missing) "vs_123" twelve_tickets
      (initial_state (sample_world Missing)) = (Ok tt, s', t) /\
    shape t
    = [TBatch "
📦 Processing batch 1/3 (5 documents)";
       TRecord; TRecord; TRecord; TRecord; TRecord; TWait; TSleep 3;
       TBatch "
📦 Processing batch 2/3 (5 documents)";
       TRecord; TRecord; TRecord; TRecord; TRecord; TWait; TSleep 3;
       TBatch "
📦 Processing batch 3/3 (2 documents)";
       TRecord; TRecord].
Proof.
  apply (twelve_records_three_batches (sample_world Missing) "vs_123"
           twelve_tickets (initial_state (sample_world Missing))).
  - reflexivity.
  - reflexivity.
  - reflexivity.
  - intros global_index. reflexivity.
Defined.


(** C6.  When, of the N records of a run, one fails in an API call and
    the others upload, every record up to the last is processed, and the
    report shows N-1 successes, 1 error, and as success rate
    [(N-1) / N * 100] rounded to one decimal: the tenths of a percent
    nearest to it, with a point before the last digit.  The prints of the
    records and of the vector store id go through, and N is below 2^53,
    where an [int] is a float exactly and the quotient of the two floats is
    the true division of the two [int]s. *)
Theorem one_failed_record_report w id lines k :
  client_error w (getenv w "OPENAI_API_KEY") = None ->
  getenv w "OPENAI_VECTOR_STORE_ID" = Some id ->
  String.eqb id "" = false ->
  encodable id = true ->
  input w = Lines lines ->
  forallb well_formed lines = true ->
  1 <= k <= length (documents_of lines) ->
  all_records (one_failure w k) 0 (documents_of lines) = true ->
  all_records (prints_go_through w) 0 (documents_of lines) = true ->
  (Z.of_nat (length (documents_of lines)) < 2 ^ 53)%Z ->
  let N := length (documents_of lines) in
  exit_code (main w) = 0 /\
  success_count (final (main w)) = N - 1 /\
  error_count (final (main w)) = 1 /\
  (forall i, 1 <= i <= N -> i <> k ->
     exists ticket file_id,
       In (EPrint (success_line i N ticket file_id)) (trace (main w))) /\
  (exists ticket e, In (EPrintError k N ticket e) (trace (main w))) /\
  exists tenths : Z,
    (2 * Z.abs (tenths * Z.of_nat N - 1000 * Z.of_nat (N - 1)) <= Z.of_nat N)%Z /\
    exists before,
      trace (main w)
      = before
        ++ [EPrint "
🎉 Upload completed!"; EPrint "
📊 Results:";
            EPrint ("   Total documents: " +:+ str_nat N);
            EPrint ("   Successfully uploaded: " +:+ str_nat (N - 1));
            EPrint "   Errors: 1";
            EPrint ("   Success rate: "
                    +:+ (str_int (tenths / 10) +:+ "." +:+ str_int (tenths mod 10))
                    +:+ "%");
            EPrint ("
🔗 Vector Store ID: " +:+ id);
            EPrint "📁 Files uploaded with purpose: assistants";
            EPrint "
✅ Your RAG system is now ready to use the enhanced cancellation data!"].
Proof.
  intros Hclient Hid Hne _ Hin Hwf Hk Hall _ Hbound N.
  set (documents := documents_of lines) in *.
  destruct (upload_to_vector_store_run w id lines Hclient Hid Hne Hin Hwf)
    as (before & Hmain).
  fold documents in Hmain.
  destruct (process_documents_total w id documents) with (s := initial_state w)
    as (s1 & t1 & Hloop).
  { intros p doc s Hp.
    pose proof (all_records_lookup _ _ 0 p doc Hall Hp) as Hdoc.
    unfold one_failure in Hdoc. simpl in Hdoc.
    destruct (p + 1 =? k).
    - destruct (fails_in_api_call_run w id (length documents) (p + 1) doc s Hdoc)
        as (s' & t & _ & _ & H & _). eauto.
    - destruct (uploads_run w id (length documents) (p + 1) doc s Hdoc)
        as (s' & t & _ & _ & H & _). eauto. }
  pose proof Hloop as Hinv.
  apply process_documents_inv in Hinv as (s0 & ts & _ & Hs0 & He0 & Hts & Ht1).
  pose proof (processed_length _ _ _ _ _ _ _ _ Hts) as Hlen.
  destruct (processed_one_failure w id documents k 0 documents s0 s1 ts Hts Hall)
    as (Hs & He & Hok & Hko).
  rewrite bool_decide_eq_true_2 in Hs, He by (fold N; lia).
  fold N in Hs, Hok, Hko, Ht1, Hlen.
  assert (documents <> []) as Hne0.
  { intros Hnil. unfold N in Hk. rewrite Hnil in Hk. simpl in Hk. lia. }
  destruct (report_run id documents s1 Hne0) as (rate & Hrate & Hreport).
  assert (success_count s1 = N - 1) as HsN by lia.
  assert (error_count s1 = 1) as HeN by lia.
  fold N in Hrate, Hreport. rewrite HsN, HeN in Hreport. rewrite HsN in Hrate.
  destruct (success_rate_nearest N) as (tenths & Hnear & Htenths); [lia|done|].
  rewrite Htenths in Hrate. injection Hrate as <-.
  pose proof (bind_ok _ (fun _ => report id documents) _ _ _ _ _ _ _ Hloop Hreport)
    as Hrun.
  apply Hmain in Hrun.
  assert (forall e, In e (concat ts) -> In e (trace (main w))) as Hin_trace.
  { intros e Hine. unfold main. rewrite Hrun. simpl.
    apply in_or_app. right. apply in_or_app. left. rewrite Ht1.
    apply weave_records; [|done]. rewrite Hlen. apply batches_cover. }
  unfold main. rewrite Hrun. simpl.
  split; [done|]. split; [done|]. split; [done|]. split; [|split].
  - intros i Hi Hik. destruct (Hok i) as (ticket & fid & Hine); [lia|done|].
    exists ticket, fid. apply Hin_trace in Hine.
    unfold main in Hine. by rewrite Hrun in Hine.
  - destruct Hko as (ticket & e & Hine); [lia|].
    exists ticket, e. apply Hin_trace in Hine.
    unfold main in Hine. by rewrite Hrun in Hine.
  - exists tenths. split; [done|]. exists (before ++ t1). by rewrite <- app_assoc.
Qed.

Lemma one_failed_record_report_witness :
  exit_code (main second_refused_world) = 0 /\
  success_count (final (main second_refused_world)) = 2 /\
  error_count (final (main second_refused_world)) = 1 /\
  In (EPrint "   Success rate: 66.7%") (trace (main second_refused_world)).
Proof.
  pose proof (one_failed_record_report second_refused_world "vs_123"
                [Parsed plain_ticket; Blank; Parsed refund_ticket;
                 Parsed plain_ticket] 2) as H.
  destruct H as (Hexit & Hs & He & _ & _ & tenths & Hnear & before & Htrace).
  - reflexivity.
  - reflexivity.
  - reflexivity.
  - reflexivity.
  - reflexivity.
  - reflexivity.
  - simpl. lia.
  - vm_compute. reflexivity.
  - vm_compute. reflexivity.
  - simpl. lia.
  - split; [done|]. split; [done|]. split; [done|].
    assert (tenths = 667%Z) as -> by (simpl in Hnear; lia).
    rewrite Htrace. apply in_or_app. right.
    do 5 right. left. reflexivity.
Defined.

(** Up to two thousand records, the floats print the rate of one failure
    as the exact percentage rounds. *)
Lemma success_rate_exact_up_to_2000 :
  forallb (fun n => match success_rate (n - 1) n with
                    | Ok rate => String.eqb rate (exact_rate (n - 1) n)
                    | Raise _ => false
                    end) (seq 1 2000) = true.
Proof. vm_compute. reflexivity. Qed.

(** C9.  With [OPENAI_VECTOR_STORE_ID] not set the run ends in a fatal
    error, and nothing of it touches a file: the input file is neither
    looked for, nor opened, nor read. *)
Theorem unset_vector_store_id_is_fatal w :
  getenv w "OPENAI_VECTOR_STORE_ID" = None ->
  exit_code (main w) = 1 /\
  (exists e, fatal_error (main w) = Some e) /\
  Forall (fun e => is_file_access e = false) (trace (main w)).
Proof.
  intros Hunset.
  unfold main, fatal_error, upload_to_vector_store, OpenAI, os_getenv, print, emit,
    bind, ret, raise.
  rewrite Hunset.
  destruct (client_error w (getenv w "OPENAI_API_KEY")) as [e|]; cbn.
  - split; [done|]. split; [by exists e|]. repeat constructor.
  - split; [done|]. split; [by eexists|]. repeat constructor.
Qed.

Lemma unset_vector_store_id_is_fatal_witness :
  exit_code (main unset_and_missing_world) = 1.
Proof.
  apply (unset_vector_store_id_is_fatal unset_and_missing_world).
  reflexivity.
Defined.

(** C8, as the specification has it, fails: with the input file missing
    and [OPENAI_VECTOR_STORE_ID] not set, the fatal error is the
    [ValueError] of line 24, not a file-not-found error. *)
Lemma missing_input_reports_unset_variable :
  ~ (input unset_and_missing_world = Missing ->
     exists msg,
       fatal_error (main unset_and_missing_world) = Some (FileNotFoundError msg)).
Proof.
  intros H. destruct (H eq_refl) as [msg Hmsg].
  vm_compute in Hmsg. discriminate Hmsg.
Qed.

(** C8, amended.  With the input file missing the run ends with exit code
    1 before any line is parsed and without an API call; the error it
    reports is the file-not-found error whenever the client could be built
    and [OPENAI_VECTOR_STORE_ID] is set to a non-empty value. *)
Theorem missing_input_is_fatal w :
  input w = Missing ->
  exit_code (main w) = 1 /\
  Forall (fun e => is_parse e = false /\ is_api_call e = false) (trace (main w)) /\
  (client_error w (getenv w "OPENAI_API_KEY") = None ->
   forall id,
     getenv w "OPENAI_VECTOR_STORE_ID" = Some id ->
     String.eqb id "" = false ->
     fatal_error (main w)
     = Some (FileNotFoundError
               "Input file vector-store-data-2025-10-10.jsonl not found")).
Proof.
  intros Hmissing.
  unfold main, fatal_error, upload_to_vector_store, OpenAI, os_getenv,
    read_documents, print, emit, bind, ret, raise.
  rewrite Hmissing.
  destruct (client_error w (getenv w "OPENAI_API_KEY")) as [e|]; cbn.
  { split; [done|]. split; [repeat constructor | done]. }
  destruct (getenv w "OPENAI_VECTOR_STORE_ID") as [id|]; cbn.
  2: { split; [done|]. split; [repeat constructor | done]. }
  destruct (String.eqb id "") eqn:Hid; cbn.
  { split; [done|]. split; [repeat constructor|].
    intros _ id' [= <-] Hid'. congruence. }
  split; [done|]. split; [repeat constructor | done].
Qed.

Lemma missing_input_is_fatal_witness :
  fatal_error (main (sample_world Missing))
  = Some (FileNotFoundError
            "Input file vector-store-data-2025-10-10.jsonl not found").
Proof.
  apply (missing_input_is_fatal (sample_world Missing) eq_refl) with (id := "vs_123");
    reflexivity.
Defined.

(** C1 fails on the code.  The first of two records has [null] for its
    metadata: rendering raises, the handler raises in its turn on
    [metadata.get], and the run stops there with exit code 1, no error
    counted and the second record never looked at. *)
Theorem null_metadata_aborts_run :
  exit_code (main null_metadata_world) = 1 /\
  fatal_error (main null_metadata_world) = Some AttributeError /\
  success_count (final (main null_metadata_world)) = 0 /\
  error_count (final (main null_metadata_world)) = 0 /\
  trace (main null_metadata_world)
  = [EPrint "🔄 Uploading cancellation tickets to vector store...";
     EGetenv "OPENAI_API_KEY"; EOpenAI (Some "sk-test");
     EGetenv "OPENAI_VECTOR_STORE_ID";
     EExists "vector-store-data-2025-10-10.jsonl";
     EOpen "vector-store-data-2025-10-10.jsonl" "r";
     EJsonLoads 1; EJsonLoads 2;
     EPrint "Found 2 documents to upload";
     EPrint "
📦 Processing batch 1/1 (2 documents)";
     EPrintFailed AttributeError].
Proof. vm_compute. repeat split. Qed.

(** What C1 says does hold of a record that is an object whose metadata,
    if any, is an object, as long as its two prints and the handler's own
    [os.remove] go through: its processing ends, with one of the counters
    moved by one. *)
Lemma valid_record_never_aborts w vector_store_id total global_index doc s :
  valid_record doc = true ->
  prints_go_through w global_index doc = true ->
  cleanup (attempts w global_index) = None ->
  exists s' t,
    process_record w vector_store_id total global_index doc s = (Ok tt, s', t) /\
    (success_count s' = S (success_count s) /\ error_count s' = error_count s
     \/ success_count s' = success_count s /\ error_count s' = S (error_count s)).
Proof.
  intros Hvalid _ Hclean.
  destruct (process_record_total w vector_store_id total global_index doc s
              Hvalid Hclean) as (s' & t & Hrun).
  exists s', t. split; [done|].
  by apply process_record_inv in Hrun as (Hcount & _).
Qed.

(** C7 fails on the code.  With a file that holds no record the loop is
    over at once, the report prints its three counts, and the success rate
    divides by zero: the process exits with code 1. *)
Theorem empty_input_exits_one :
  (process_documents empty_input_world "vs_123" []
     (initial_state empty_input_world)).1.1 = Ok tt /\
  exit_code (main empty_input_world) = 1 /\
  fatal_error (main empty_input_world) = Some ZeroDivisionError /\
  trace (main empty_input_world)
  = [EPrint "🔄 Uploading cancellation tickets to vector store...";
     EGetenv "OPENAI_API_KEY"; EOpenAI (Some "sk-test");
     EGetenv "OPENAI_VECTOR_STORE_ID";
     EExists "vector-store-data-2025-10-10.jsonl";
     EOpen "vector-store-data-2025-10-10.jsonl" "r";
     EPrint "Found 0 documents to upload";
     EPrint "
🎉 Upload completed!"; EPrint "
📊 Results:";
     EPrint "   Total documents: 0";
     EPrint "   Successfully uploaded: 0";
     EPrint "   Errors: 0";
     EPrintFailed ZeroDivisionError].
Proof. vm_compute. repeat split. Qed.

(** What C7 says does hold as soon as there is one record: a loop that
    comes to its end is followed by the whole report and exit code 0,
    whatever the counts. *)
Lemma completed_run_exits_zero w id lines s1 t1 :
  client_error w (getenv w "OPENAI_API_KEY") = None ->
  getenv w "OPENAI_VECTOR_STORE_ID" = Some id ->
  String.eqb id "" = false ->
  input w = Lines lines ->
  forallb well_formed lines = true ->
  documents_of lines <> [] ->
  process_documents w id (documents_of lines) (initial_state w) = (Ok tt, s1, t1) ->
  exit_code (main w) = 0.
Proof.
  intros Hclient Hid Hne Hin Hwf Hdocs Hloop.
  destruct (upload_to_vector_store_run w id lines Hclient Hid Hne Hin Hwf)
    as (before & Hmain).
  destruct (report_run id (documents_of lines) s1 Hdocs) as (rate & _ & Hreport).
  pose proof (bind_ok _ (fun _ => report id (documents_of lines)) _ _ _ _ _ _ _
                Hloop Hreport) as Hrun.
  apply Hmain in Hrun. unfold main. by rewrite Hrun.
Qed.

(** The exit code is 1 exactly when an exception leaves
    [upload_to_vector_store]. *)
Lemma exit_code_one_iff_raised w :
  exit_code (main w) = 1
  <-> exists e, (upload_to_vector_store w (initial_state w)).1.1 = Raise e.
Proof.
  unfold main.
  destruct (upload_to_vector_store w (initial_state w)) as [[[[]|e] s] t]; simpl.
  - split; [discriminate | intros [e [=]]].
  - split; [by exists e | done].
Qed.

(** * Further properties of the script *)

(** ** The loader *)

Lemma read_lines_malformed lines : forall lineno,
  forallb well_formed lines = false ->
  exists t,
    Forall (fun e => is_parse e = true) t /\
    forall documents s,
      read_lines lineno lines documents s = (Raise JSONDecodeError, s, t).
Proof.
  induction lines as [|l lines IH]; simpl; intros lineno Hwf; [done|].
  destruct l as [| |doc]; simpl in Hwf.
  - destruct (IH (S lineno) Hwf) as (t & Ht & Hrun). by exists t.
  - exists [EJsonLoads lineno]. split; [by repeat constructor | done].
  - destruct (IH (S lineno) Hwf) as (t & Ht & Hrun).
    exists (EJsonLoads lineno :: t). split; [by constructor|].
    intros documents s. unfold bind, emit. by rewrite Hrun.
Qed.

Lemma read_lines_count lines : forall lineno,
  forallb well_formed lines = true ->
  exists t,
    Forall (fun e => is_parse e = true) t /\
    length t = length (documents_of lines) /\
    forall documents s,
      read_lines lineno lines documents s
      = (Ok (documents ++ documents_of lines), s, t).
Proof.
  induction lines as [|l lines IH]; simpl; intros lineno Hwf.
  - exists []. split; [constructor|]. split; [done|].
    intros documents s. by rewrite app_nil_r.
  - apply andb_true_iff in Hwf as [Hl Hwf].
    destruct (IH (S lineno) Hwf) as (t & Ht & Hlen & Hrun).
    destruct l as [| |doc]; [|done|].
    + by exists t.
    + exists (EJsonLoads lineno :: t). split; [by constructor|].
      split; [simpl; by rewrite Hlen|].
      intros documents s. unfold bind, emit. rewrite Hrun.
      by rewrite <- app_assoc.
Qed.

(** X1.  The loader returns the parsed lines in file order, the blank
    ones skipped; it calls [json.loads] once per document and touches
    nothing. *)
Theorem loader_keeps_parsed_lines w lines s :
  input w = Lines lines ->
  forallb well_formed lines = true ->
  exists t,
    read_documents w s
    = (Ok (documents_of lines), s, EExists input_path :: EOpen input_path "r" :: t) /\
    Forall (fun e => is_parse e = true) t /\
    length t = length (documents_of lines).
Proof.
  intros Hin Hwf.
  destruct (read_lines_count lines 1 Hwf) as (t & Ht & Hlen & Hrun).
  exists t. split; [|done].
  unfold read_documents, bind, emit. by rewrite Hin, Hrun.
Qed.

Lemma loader_keeps_parsed_lines_witness :
  exists t,
    read_documents second_refused_world (initial_state second_refused_world)
    = (Ok [plain_ticket; refund_ticket; plain_ticket],
       initial_state second_refused_world,
       EExists input_path :: EOpen input_path "r" :: t) /\
    Forall (fun e => is_parse e = true) t /\
    length t = 3.
Proof.
  apply (loader_keeps_parsed_lines second_refused_world
           [Parsed plain_ticket; Blank; Parsed refund_ticket; Parsed plain_ticket]);
    reflexivity.
Defined.

(** What a run that ends normally went through: both variables set, the
    file read in full, the loop over its documents ended. *)
Lemma upload_ok_inv w s s' t :
  upload_to_vector_store w s = (Ok tt, s', t) ->
  exists id lines t1,
    client_error w (getenv w "OPENAI_API_KEY") = None /\
    getenv w "OPENAI_VECTOR_STORE_ID" = Some id /\
    String.eqb id "" = false /\
    input w = Lines lines /\
    forallb well_formed lines = true /\
    documents_of lines <> [] /\
    process_documents w id (documents_of lines) s = (Ok tt, s', t1) /\
    exists before after, t = before ++ t1 ++ after /\
      Forall (fun e => is_write_or_remove e = false /\ is_api_call e = false) before /\
      Forall (fun e => is_write_or_remove e = false /\ is_api_call e = false) after.
Proof.
  intros Hrun.
  destruct (client_error w (getenv w "OPENAI_API_KEY")) as [e|] eqn:Hclient.
  { unfold upload_to_vector_store, OpenAI, os_getenv, print, emit, bind, raise in Hrun.
    rewrite Hclient in Hrun. cbn in Hrun. discriminate. }
  destruct (getenv w "OPENAI_VECTOR_STORE_ID") as [id|] eqn:Hid.
  2: { unfold upload_to_vector_store, OpenAI, os_getenv, print, emit, bind, ret, raise
         in Hrun.
       rewrite Hclient, Hid in Hrun. cbn in Hrun. discriminate. }
  destruct (String.eqb id "") eqn:Hne.
  { unfold upload_to_vector_store, OpenAI, os_getenv, print, emit, bind, ret, raise
      in Hrun.
    rewrite Hclient, Hid, Hne in Hrun. cbn in Hrun. discriminate. }
  destruct (input w) as [|e|lines] eqn:Hin.
  1,2: unfold upload_to_vector_store, OpenAI, os_getenv, read_documents, print, emit,
         bind, ret, raise in Hrun;
       rewrite Hclient, Hid, Hne, Hin in Hrun; cbn in Hrun; discriminate.
  destruct (forallb well_formed lines) eqn:Hwf.
  2: { destruct (read_lines_malformed lines 1 Hwf) as (tl & _ & Hread).
       unfold upload_to_vector_store, OpenAI, os_getenv, read_documents, print, emit,
         bind, ret, raise in Hrun.
       rewrite Hclient, Hid, Hne, Hin, Hread in Hrun. cbn in Hrun. discriminate. }
  destruct (read_lines_count lines 1 Hwf) as (tl & Htl & _ & Hread).
  unfold upload_to_vector_store, OpenAI, os_getenv, read_documents, print, emit,
    bind, ret, raise in Hrun.
  rewrite Hclient, Hid, Hne, Hin, Hread in Hrun. cbn in Hrun.
  destruct (process_documents w id (documents_of lines) s) as [[[[]|e] s1] t1] eqn:Hloop;
    [|discriminate].
  destruct (report id (documents_of lines) s1) as [[r2 s2] t2] eqn:Hreport.
  injection Hrun as -> <- <-.
  assert (documents_of lines <> []) as Hne0.
  { intros Hnil. rewrite Hnil in Hreport. vm_compute in Hreport. discriminate. }
  destruct (report_run id (documents_of lines) s1 Hne0) as (rate & _ & Hrep).
  rewrite Hrep in Hreport. injection Hreport as <- <-.
  exists id, lines, t1. repeat split; try done.
  eexists (_ :: _ :: _ :: _ :: _ :: _ :: tl ++ [_]), _.
  split; [|split].
  - cbn. rewrite <- !app_assoc. reflexivity.
  - repeat (apply Forall_cons; split; [done|]).
    apply Forall_app. split; [|by repeat constructor].
    eapply Forall_impl; [exact Htl|]. by intros [] ?.
  - repeat constructor.
Qed.

(** X2.  A line that [json.loads] rejects stops the whole run: exit code
    1 on the decode error, nothing written, uploaded or removed, the disk as
    it was and no record counted. *)
Theorem malformed_line_is_fatal w id lines :
  client_error w (getenv w "OPENAI_API_KEY") = None ->
  getenv w "OPENAI_VECTOR_STORE_ID" = Some id ->
  String.eqb id "" = false ->
  input w = Lines lines ->
  forallb well_formed lines = false ->
  exit_code (main w) = 1 /\
  fatal_error (main w) = Some JSONDecodeError /\
  final (main w) = initial_state w /\
  Forall (fun e => is_write_or_remove e = false /\ is_api_call e = false)
         (trace (main w)).
Proof.
  intros Hclient Hid Hne Hin Hwf.
  destruct (read_lines_malformed lines 1 Hwf) as (tl & Htl & Hread).
  unfold main, fatal_error, upload_to_vector_store, OpenAI, os_getenv,
    read_documents, print, emit, bind, ret, raise.
  rewrite Hclient, Hid, Hne, Hin, Hread. cbn.
  split; [done|]. split.
  - rewrite !app_comm_cons, last_snoc. done.
  - split; [done|].
    repeat (apply Forall_cons; split; [done|]).
    apply Forall_app. split; [|by repeat constructor].
    eapply Forall_impl; [exact Htl|]. by intros [] ?.
Qed.

Lemma malformed_line_is_fatal_witness :
  fatal_error (main (sample_world (Lines [Parsed plain_ticket; Malformed;
                                          Parsed plain_ticket])))
  = Some JSONDecodeError.
Proof.
  apply (malformed_line_is_fatal
           (sample_world (Lines [Parsed plain_ticket; Malformed; Parsed plain_ticket]))
           "vs_123" [Parsed plain_ticket; Malformed; Parsed plain_ticket]);
    reflexivity.
Defined.

(** X3.  [OPENAI_VECTOR_STORE_ID] set to the empty string counts as not
    set: the same [ValueError], and no file is looked at. *)
Theorem empty_vector_store_id_is_fatal w :
  client_error w (getenv w "OPENAI_API_KEY") = None ->
  getenv w "OPENAI_VECTOR_STORE_ID" = Some "" ->
  exit_code (main w) = 1 /\
  fatal_error (main w)
  = Some (ValueError "OPENAI_VECTOR_STORE_ID environment variable not set") /\
  Forall (fun e => is_file_access e = false) (trace (main w)).
Proof.
  intros Hclient Hid.
  unfold main, fatal_error, upload_to_vector_store, OpenAI, os_getenv, print, emit,
    bind, ret, raise.
  rewrite Hclient, Hid. cbn. split; [done|]. split; [done|]. repeat constructor.
Qed.

Lemma empty_vector_store_id_is_fatal_witness :
  exit_code (main {| getenv := fun name =>
                       if String.eqb name "OPENAI_API_KEY" then Some "sk-test"
                       else Some "";
                     py_repr := fun _ => "?";
                     client_error := fun _ => None;
                     input := Lines [Parsed plain_ticket];
                     files := ∅;
                     attempts := fun _ => quiet_attempt |}) = 1.
Proof.
  eapply empty_vector_store_id_is_fatal; reflexivity.
Defined.

(** X4.  When the client cannot be built, its exception is the fatal
    error, and the run stops before [OPENAI_VECTOR_STORE_ID] is read. *)
Theorem client_failure_is_fatal w e :
  client_error w (getenv w "OPENAI_API_KEY") = Some e ->
  exit_code (main w) = 1 /\
  trace (main w)
  = [EPrint "🔄 Uploading cancellation tickets to vector store...";
     EGetenv "OPENAI_API_KEY"; EOpenAI (getenv w "OPENAI_API_KEY");
     EPrintFailed e].
Proof.
  intros Hclient.
  unfold main, upload_to_vector_store, OpenAI, os_getenv, print, emit, bind, ret,
    raise.
  rewrite Hclient. cbn. done.
Qed.

Lemma client_failure_is_fatal_witness :
  exit_code (main {| getenv := fun _ => None;
                     py_repr := fun _ => "?";
                     client_error := fun key =>
                       match key with None => Some APIError | Some _ => None end;
                     input := Lines [Parsed plain_ticket];
                     files := ∅;
                     attempts := fun _ => quiet_attempt |}) = 1.
Proof.
  eapply (client_failure_is_fatal _ APIError). reflexivity.
Defined.

(** X5.  A run that exits with code 0 read a file with at least one
    document, and its two counters add up to the number of documents. *)
Theorem exit_zero_counts_every_document w :
  exit_code (main w) = 0 ->
  exists lines,
    input w = Lines lines /\
    forallb well_formed lines = true /\
    1 <= length (documents_of lines) /\
    success_count (final (main w)) + error_count (final (main w))
    = length (documents_of lines).
Proof.
  unfold main.
  destruct (upload_to_vector_store w (initial_state w)) as [[[[]|e] s'] t] eqn:Hrun;
    [|discriminate].
  intros _. simpl.
  apply upload_ok_inv in Hrun
    as (id & lines & t1 & _ & _ & _ & Hin & Hwf & Hne & Hloop & _).
  exists lines. split; [done|]. split; [done|]. split.
  - destruct (documents_of lines); [done | simpl; lia].
  - apply process_documents_inv in Hloop as (s0 & ts & _ & Hs & He & Hts & _).
    apply processed_outcomes in Hts as [Hsum _]. lia.
Qed.

Lemma exit_zero_counts_every_document_witness :
  exists lines,
    input second_refused_world = Lines lines /\
    forallb well_formed lines = true /\
    1 <= length (documents_of lines) /\
    success_count (final (main second_refused_world))
    + error_count (final (main second_refused_world))
    = length (documents_of lines).
Proof.
  apply (exit_zero_counts_every_document second_refused_world).
  vm_compute. reflexivity.
Defined.

(** ** The disk *)

Lemma upload_document_disk w vsid total gi doc s r s' t path :
  upload_document w vsid total gi doc s = (r, s', t) ->
  match r with
  | Ok _ => disk s' !! path = None \/ disk s' !! path = disk s !! path
  | Raise _ =>
      disk s' !! path = disk s !! path
      \/ exists md, metadata s' = Some md
           /\ temp_filename (py_repr w) md gi = Ok path
  end.
Proof.
  run_steps;
    try (left; reflexivity);
    match goal with
    | H : temp_filename _ _ _ = Ok ?name |- _ =>
        destruct (decide (path = name)) as [->|Hne]
    end;
    rewrite ?lookup_delete_eq, ?lookup_insert_eq;
    rewrite ?lookup_delete_ne, ?lookup_insert_ne by done;
    eauto.
Qed.

Lemma upload_failed_disk w total gi e s u s' t path :
  upload_failed w total gi e s = (Ok u, s', t) ->
  disk s' !! path = None \/ disk s' !! path = disk s !! path.
Proof.
  run_steps; [|by right].
  match goal with
  | H : temp_filename _ _ _ = Ok ?name |- _ =>
      destruct (decide (path = name)) as [->|Hne]
  end.
  - left. apply lookup_delete_eq.
  - right. by apply lookup_delete_ne.
Qed.

Lemma process_record_disk w vsid total gi doc s s' t path :
  process_record w vsid total gi doc s = (Ok tt, s', t) ->
  disk s' !! path = None \/ disk s' !! path = disk s !! path.
Proof.
  intros H. apply try_except_inv in H as [(a & Hb & _)|(e & s1 & t1 & t2 & Hb & Hh & ->)].
  - exact (upload_document_disk _ _ _ _ _ _ _ _ _ path Hb).
  - pose proof (upload_document_disk _ _ _ _ _ _ _ _ _ path Hb) as [Hsame|(md & Hmd & Hname)].
    + destruct (upload_failed_disk _ _ _ _ _ _ _ _ path Hh) as [?|Heq]; [by left|].
      right. congruence.
    + left. by eapply (upload_failed_inv w _ _ _ _ _ _ _ Hh).
Qed.

Lemma processed_disk w vsid total p l s s' ts path :
  processed w vsid total p l s s' ts ->
  disk s' !! path = None \/ disk s' !! path = disk s !! path.
Proof.
  induction 1 as [p s|p doc rest s s1 s2 t ts Hdoc Hrest IH]; [by right|].
  destruct IH as [?|IH]; [by left|].
  destruct (process_record_disk _ _ _ _ _ _ _ _ path Hdoc) as [?|Heq].
  - left. congruence.
  - right. congruence.
Qed.

(** X6.  A run that exits with code 0 leaves no file behind and changes
    none: whatever is on the disk at the end was there at the start, with
    the same content. *)
Theorem completed_run_creates_no_file w path content :
  exit_code (main w) = 0 ->
  disk (final (main w)) !! path = Some content ->
  files w !! path = Some content.
Proof.
  unfold main.
  destruct (upload_to_vector_store w (initial_state w)) as [[[[]|e] s'] t] eqn:Hrun;
    [|discriminate].
  intros _. simpl. intros Hpath.
  apply upload_ok_inv in Hrun
    as (id & lines & t1 & _ & _ & _ & _ & _ & _ & Hloop & _).
  apply process_documents_inv in Hloop as (s0 & ts & Hdisk & _ & _ & Hts & _).
  destruct (processed_disk _ _ _ _ _ _ _ _ path Hts) as [Hnone|Heq]; [congruence|].
  rewrite Heq, Hdisk in Hpath. exact Hpath.
Qed.

Lemma completed_run_creates_no_file_witness :
  files notes_world !! "notes.txt" = Some "keep".
Proof.
  apply (completed_run_creates_no_file notes_world "notes.txt" "keep").
  - vm_compute. reflexivity.
  - vm_compute. reflexivity.
Defined.

(** ** The batches *)

Lemma pause_iff_not_last total b :
  (b * batch_size + batch_size <? total)
  = (b + 1 <? (total + batch_size - 1) / batch_size).
Proof.
  unfold batch_size.
  pose proof (Nat.div_mod_eq (total + 5 - 1) 5) as Hd.
  pose proof (Nat.mod_upper_bound (total + 5 - 1) 5 ltac:(lia)) as Hm.
  set (q := (total + 5 - 1) / 5) in *. set (m := (total + 5 - 1) mod 5) in *.
  clearbody q m.
  destruct (Nat.ltb_spec (b * 5 + 5) total), (Nat.ltb_spec (b + 1) q);
    try done; exfalso; lia.
Qed.

Lemma shape_weave total ts :
  Forall (fun t => shape t = [TRecord]) ts ->
  forall count b,
    length ts = total - b * batch_size ->
    shape (weave count (b * batch_size) total ts)
    = flat_map (batch_shape total ((total + batch_size - 1) / batch_size))
               (seq b count).
Proof.
  intros Hts count. revert ts Hts.
  induction count as [|count IH]; intros ts Hts b Hlen; [done|].
  cbn [weave seq flat_map]. unfold batch_shape at 1.
  rewrite shape_cons, classify_batch_line, !shape_app.
  rewrite shape_concat_records by by apply Forall_take.
  rewrite length_take, Hlen, Nat.div_mul by done.
  rewrite pause_iff_not_last.
  replace (b * batch_size + batch_size) with (S b * batch_size)
    by (unfold batch_size; lia).
  rewrite (IH (drop batch_size ts)); [| by apply Forall_drop |].
  - rewrite <- app_comm_cons, <- app_assoc. do 3 f_equal.
    destruct (b + 1 <? _); reflexivity.
  - rewrite length_drop, Hlen. unfold batch_size. lia.
Qed.

(** X7.  However many documents there are, a loop that ends went through
    them in batches of five, the last one holding what is left: a header
    per batch with its number, the number of batches and its size, one
    outcome per record, and a pause of three seconds after every batch
    except the last. *)
Theorem batches_of_five w vector_store_id documents s s' t :
  process_documents w vector_store_id documents s = (Ok tt, s', t) ->
  shape t = batches_shape (length documents).
Proof.
  intros Hrun.
  apply process_documents_inv in Hrun as (s0 & ts & _ & _ & _ & Hts & ->).
  pose proof (processed_length _ _ _ _ _ _ _ _ Hts) as Hlen.
  apply processed_outcomes in Hts as [_ Hshape].
  unfold batches_shape.
  apply (shape_weave (length documents) ts Hshape
           ((length documents + batch_size - 1) / batch_size) 0).
  simpl. lia.
Qed.

Lemma batches_of_five_witness :
  let done :=
    process_documents (sample_world Missing) "vs_123" seven_tickets
      (initial_state (sample_world Missing)) in
  shape done.2 = batches_shape 7.
Proof.
  intros done.
  apply (batches_of_five (sample_world Missing) "vs_123" seven_tickets
           (initial_state (sample_world Missing)) done.1.2 done.2).
  vm_compute. reflexivity.
Defined.

(** ** One record, path by path *)

Section Paths.

Variable w : world.
Variable vsid : string.
Variable total gi : nat.
Variable doc : json.
Variable fields : list (string * json).
Variable text : string.

Hypothesis Hmetadata : get doc "metadata" (JObj []) = Ok (JObj fields).
Hypothesis Htext : text_content (py_repr w) doc (JObj fields) = Ok text.

Local Abbreviation name :=
  ("temp_cancellation_"
   +:+ format (py_repr w) (dict_get fields "ticketId" (JInt (Z.of_nat gi)))
   +:+ ".txt").
Local Abbreviation ticket :=
  (format (py_repr w) (dict_get fields "ticketId" (JStr "unknown"))).

Ltac follow :=
  unfold_record;
  repeat first
    [ rewrite Hmetadata | rewrite Htext
    | match goal with H : _ (attempts w gi) = _ |- _ => rewrite H end
    | rewrite temp_filename_dict | rewrite field_dict
    | rewrite lookup_insert_eq | progress cbn ].


(** X9.  When [files.create] raises, no attach call is made for the
    record: the error is printed with the record's ticket id and counted,
    and the transient file is removed by the handler. *)
Theorem failed_create_skips_attach s e :
  write (attempts w gi) = Written ->
  open_rb (attempts w gi) = None ->
  files_create (attempts w gi) = Raise e ->
  cleanup (attempts w gi) = None ->
  process_record w vsid total gi doc s
  = (Ok tt,
     {| disk := delete name (disk s); metadata := Some (JObj fields);
        success_count := success_count s; error_count := S (error_count s) |},
     [EOpen name "w"; EWrite name text; EOpen name "rb";
      EFilesCreate text "assistants";
      EPrintError gi total ticket e; EExists name; ERemove name]).
Proof.
  intros Hw Ho Hc Hcl. follow.
  unfold set_disk. cbn. by rewrite delete_insert_eq.
Qed.

(** X10.  When the attach call raises, the file created on the service
    just before stays there: the handler only prints, counts and removes the
    local file; nothing is sent to the service about the uploaded file. *)
Theorem failed_attach_leaves_uploaded_file s file_id e :
  write (attempts w gi) = Written ->
  open_rb (attempts w gi) = None ->
  files_create (attempts w gi) = Ok file_id ->
  vector_store_attach (attempts w gi) = Some e ->
  cleanup (attempts w gi) = None ->
  process_record w vsid total gi doc s
  = (Ok tt,
     {| disk := delete name (disk s); metadata := Some (JObj fields);
        success_count := success_count s; error_count := S (error_count s) |},
     [EOpen name "w"; EWrite name text; EOpen name "rb";
      EFilesCreate text "assistants"; EAttach vsid file_id;
      EPrintError gi total ticket e; EExists name; ERemove name]).
Proof.
  intros Hw Ho Hc Ha Hcl. follow.
  unfold set_disk. cbn. by rewrite delete_insert_eq.
Qed.

(** X11.  The handler's own [os.remove] is not protected: when it raises
    after a failed upload, the exception leaves [process_record] (and so the
    loops), with the error already counted and the transient file still on
    the disk. *)
Theorem failed_cleanup_escapes s e e' :
  write (attempts w gi) = Written ->
  open_rb (attempts w gi) = None ->
  files_create (attempts w gi) = Raise e ->
  cleanup (attempts w gi) = Some e' ->
  exists s' t,
    process_record w vsid total gi doc s = (Raise e', s', t) /\
    error_count s' = S (error_count s) /\
    success_count s' = success_count s /\
    disk s' !! name = Some text.
Proof.
  intros Hw Ho Hc Hcl. follow.
  eexists _, _. split; [reflexivity|]. cbn.
  by rewrite lookup_insert_eq.
Qed.

End Paths.


Lemma failed_create_skips_attach_witness :
  (process_record (world_with refused_attempt) "vs_123" 1 1 refund_ticket
     (initial_state (world_with refused_attempt))).2
  = [EOpen "temp_cancellation_T-7.txt" "w";
     EWrite "temp_cancellation_T-7.txt" refund_text;
     EOpen "temp_cancellation_T-7.txt" "rb";
     EFilesCreate refund_text "assistants";
     EPrintError 1 1 "T-7" APIError;
     EExists "temp_cancellation_T-7.txt"; ERemove "temp_cancellation_T-7.txt"].
Proof.
  rewrite (failed_create_skips_attach (world_with refused_attempt) "vs_123" 1 1
             refund_ticket refund_metadata refund_text eq_refl eq_refl
             (initial_state (world_with refused_attempt)) APIError
             eq_refl eq_refl eq_refl eq_refl).
  reflexivity.
Defined.

Lemma failed_attach_leaves_uploaded_file_witness :
  (process_record (world_with unattached_attempt) "vs_123" 1 1 refund_ticket
     (initial_state (world_with unattached_attempt))).2
  = [EOpen "temp_cancellation_T-7.txt" "w";
     EWrite "temp_cancellation_T-7.txt" refund_text;
     EOpen "temp_cancellation_T-7.txt" "rb";
     EFilesCreate refund_text "assistants"; EAttach "vs_123" "file-1";
     EPrintError 1 1 "T-7" APIError;
     EExists "temp_cancellation_T-7.txt"; ERemove "temp_cancellation_T-7.txt"].
Proof.
  rewrite (failed_attach_leaves_uploaded_file (world_with unattached_attempt)
             "vs_123" 1 1 refund_ticket refund_metadata refund_text eq_refl eq_refl
             (initial_state (world_with unattached_attempt)) "file-1" APIError
             eq_refl eq_refl eq_refl eq_refl eq_refl).
  reflexivity.
Defined.

Lemma failed_cleanup_escapes_witness :
  exists s' t,
    process_record (world_with stuck_attempt) "vs_123" 1 1 refund_ticket
      (initial_state (world_with stuck_attempt)) = (Raise OSError, s', t) /\
    error_count s' = 1 /\
    success_count s' = 0 /\
    disk s' !! "temp_cancellation_T-7.txt" = Some refund_text.
Proof.
  exact (failed_cleanup_escapes (world_with stuck_attempt) "vs_123" 1 1
           refund_ticket refund_metadata refund_text eq_refl eq_refl
           (initial_state (world_with stuck_attempt)) APIError OSError
           eq_refl eq_refl eq_refl eq_refl).
Defined.

(** ** Records that are not objects *)

(** X12.  A record that is not a JSON object, met while [metadata] still
    holds the object of an earlier record: the handler counts the error, but
    the line it prints carries the ticket id of that earlier record, and the
    file it looks for is named after it. *)
Theorem stale_metadata_names_previous_ticket w vsid total gi doc s previous :
  is_object doc = false ->
  metadata s = Some (JObj previous) ->
  cleanup (attempts w gi) = None ->
  exists s' t,
    process_record w vsid total gi doc s
    = (Ok tt, s',
       EPrintError gi total
         (format (py_repr w) (dict_get previous "ticketId" (JStr "unknown")))
         AttributeError
       :: EExists ("temp_cancellation_"
                   +:+ format (py_repr w)
                         (dict_get previous "ticketId" (JInt (Z.of_nat gi)))
                   +:+ ".txt")
       :: t) /\
    metadata s' = Some (JObj previous) /\
    success_count s' = success_count s /\
    error_count s' = S (error_count s).
Proof.
  intros Hdoc Hmd Hclean.
  destruct doc; try discriminate Hdoc;
    unfold_record; cbn; rewrite Hmd, field_dict, temp_filename_dict, Hclean; cbn;
    (destruct (disk s !! _) as [content|] eqn:Hd; cbn; rewrite ?Hd; cbn;
     eexists _, _; (split; [reflexivity|]); done).
Qed.

Lemma stale_metadata_names_previous_ticket_witness :
  exists s' t,
    process_record (world_with quiet_attempt) "vs_123" 2 2 (JList [])
      {| disk := ∅; metadata := Some (JObj refund_metadata);
         success_count := 1; error_count := 0 |}
    = (Ok tt, s',
       EPrintError 2 2 "T-7" AttributeError
       :: EExists "temp_cancellation_T-7.txt" :: t) /\
    metadata s' = Some (JObj refund_metadata) /\
    success_count s' = 1 /\
    error_count s' = 1.
Proof.
  apply (stale_metadata_names_previous_ticket (world_with quiet_attempt) "vs_123"
           2 2 (JList [])
           {| disk := ∅; metadata := Some (JObj refund_metadata);
              success_count := 1; error_count := 0 |} refund_metadata);
    reflexivity.
Defined.

Lemma not_object_unbound w vsid total gi doc s :
  is_object doc = false ->
  metadata s = None ->
  process_record w vsid total gi doc s = (Raise (UnboundLocalError "metadata"), s, []).
Proof.
  intros Hdoc Hmd.
  destruct doc; try discriminate Hdoc; unfold_record; cbn; by rewrite Hmd.
Qed.

Lemma process_documents_first_raises w id doc rest s e s1 t1 :
  process_record w id (length (doc :: rest)) 1 doc
    {| disk := disk s; metadata := metadata s;
       success_count := 0; error_count := 0 |} = (Raise e, s1, t1) ->
  exists header,
    process_documents w id (doc :: rest) s = (Raise e, s1, EPrint header :: t1).
Proof.
  intros Hrec. unfold process_documents, range.
  destruct ((length (doc :: rest) - 0 + batch_size - 1) / batch_size) as [|count]
    eqn:Hcount.
  { apply batch_count_zero in Hcount. simpl in Hcount. lia. }
  eexists. unfold bind at 1. unfold assign_counts. cbn [range_from for_each].
  unfold bind at 1. unfold process_batch. unfold bind at 1. unfold print, emit.
  unfold bind at 1. cbn [drop take batch_size for_enumerate].
  unfold bind at 1. cbn [Nat.add]. rewrite Hrec. reflexivity.
Qed.

(** X13.  When the first document of the file is not a JSON object, the
    handler finds [metadata] unassigned: the run stops on that
    [UnboundLocalError] with exit code 1, before any record is counted and
    without any call to the service. *)
Theorem first_document_not_object_is_fatal w id lines doc rest :
  client_error w (getenv w "OPENAI_API_KEY") = None ->
  getenv w "OPENAI_VECTOR_STORE_ID" = Some id ->
  String.eqb id "" = false ->
  input w = Lines lines ->
  forallb well_formed lines = true ->
  documents_of lines = doc :: rest ->
  is_object doc = false ->
  exit_code (main w) = 1 /\
  fatal_error (main w) = Some (UnboundLocalError "metadata") /\
  success_count (final (main w)) = 0 /\
  error_count (final (main w)) = 0 /\
  Forall (fun e => is_api_call e = false) (trace (main w)).
Proof.
  intros Hclient Hid Hne Hin Hwf Hdocs Hdoc.
  destruct (read_lines_count lines 1 Hwf) as (tl & Htl & _ & Hread).
  destruct (process_documents_first_raises w id doc rest (initial_state w)
              (UnboundLocalError "metadata")
              {| disk := files w; metadata := None;
                 success_count := 0; error_count := 0 |} [])
    as (header & Hloop).
  { by apply not_object_unbound. }
  unfold main, fatal_error, upload_to_vector_store, OpenAI, os_getenv,
    read_documents, print, emit, bind, ret, raise.
  rewrite Hclient, Hid, Hne, Hin, Hread. cbn. rewrite Hdocs, Hloop. cbn.
  split; [done|]. split.
  - by rewrite app_comm_cons, last_snoc.
  - split; [done|]. split; [done|].
    repeat (apply Forall_cons; split; [done|]).
    apply Forall_app. split; [|by repeat constructor].
    apply Forall_app. split; [|by repeat constructor].
    eapply Forall_impl; [exact Htl|]. by intros [] ?.
Qed.

Lemma first_document_not_object_is_fatal_witness :
  fatal_error (main (sample_world (Lines [Parsed (JList []); Parsed plain_ticket])))
  = Some (UnboundLocalError "metadata").
Proof.
  apply (first_document_not_object_is_fatal
           (sample_world (Lines [Parsed (JList []); Parsed plain_ticket]))
           "vs_123" [Parsed (JList []); Parsed plain_ticket]
           (JList []) [plain_ticket]);
    reflexivity.
Defined.

(** ** Calls to the service *)

Lemma upload_document_calls w vsid total gi doc s r s' t :
  upload_document w vsid total gi doc s = (r, s', t) ->
  length (filter (fun e => is_files_create e = true) t) <= 1 /\
  length (filter (fun e => is_attach e = true) t) <= 1.
Proof. run_steps; cbn; lia. Qed.

Lemma upload_failed_calls w total gi e s r s' t :
  upload_failed w total gi e s = (r, s', t) ->
  Forall (fun e => is_api_call e = false) t.
Proof. run_steps; repeat constructor. Qed.

(** X14.  No retry: however the processing of a record ends, it has
    called [files.create] at most once and the attach operation at most
    once. *)
Theorem one_attempt_per_record w vsid total gi doc s r s' t :
  process_record w vsid total gi doc s = (r, s', t) ->
  length (filter (fun e => is_files_create e = true) t) <= 1 /\
  length (filter (fun e => is_attach e = true) t) <= 1.
Proof.
  intros H. apply try_except_inv in H as [(a & Hb & _)|(e & s1 & t1 & t2 & Hb & Hh & ->)].
  - exact (upload_document_calls _ _ _ _ _ _ _ _ _ Hb).
  - pose proof (upload_document_calls _ _ _ _ _ _ _ _ _ Hb) as [Hc Ha].
    pose proof (upload_failed_calls _ _ _ _ _ _ _ _ Hh) as Hnone.
    rewrite !filter_app, !length_app.
    assert (filter (fun e => is_files_create e = true) t2 = []
            /\ filter (fun e => is_attach e = true) t2 = []) as [-> ->].
    { clear -Hnone. induction Hnone as [|x l Hx _ [IH1 IH2]]; [done|].
      rewrite !filter_cons, IH1, IH2.
      destruct x; try discriminate Hx; done. }
    simpl. lia.
Qed.

Lemma one_attempt_per_record_witness :
  length (filter (fun e => is_files_create e = true)
            (process_record (world_with unattached_attempt) "vs_123" 1 1
               refund_ticket (initial_state (world_with unattached_attempt))).2) <= 1.
Proof.
  eapply (one_attempt_per_record (world_with unattached_attempt) "vs_123" 1 1
            refund_ticket (initial_state (world_with unattached_attempt))).
  vm_compute. reflexivity.
Defined.

(** ** Rendering *)

Lemma str_items_raises items e : str_items items = Raise e -> e = TypeError.
Proof.
  induction items as [|v items IH]; [discriminate|].
  destruct v; simpl; try (by intros [= <-]).
  destruct (str_items items); simpl; [discriminate|].
  intros [= <-]. by apply IH.
Qed.

Lemma joined_raises fields key e :
  joined (JObj fields) key = Raise e -> e = TypeError.
Proof.
  unfold joined, join, get. cbn.
  destruct (iterate (dict_get fields key (JList []))) as [items|e'] eqn:Hit; cbn.
  - destruct (str_items items) eqn:Hs; cbn; [discriminate|].
    intros [= <-]. by eapply str_items_raises.
  - intros [= <-].
    destruct (dict_get fields key (JList [])); simpl in Hit; congruence.
Qed.

(** X15.  What can go wrong in rendering.  With metadata that is not an
    object the template raises [AttributeError].  With an object record and
    object metadata it goes through exactly when the customer concerns and
    the topic keywords can both be joined, and otherwise raises
    [TypeError]. *)
Theorem rendering_failures (py_repr : json -> string) :
  (forall doc metadata,
     is_object metadata = false ->
     text_content py_repr doc metadata = Raise AttributeError) /\
  (forall record fields,
     (exists text, text_content py_repr (JObj record) (JObj fields) = Ok text)
     <-> (exists concerns keywords,
            joined (JObj fields) "customer_concerns" = Ok concerns /\
            joined (JObj fields) "topic_keywords" = Ok keywords)) /\
  (forall record fields e,
     text_content py_repr (JObj record) (JObj fields) = Raise e -> e = TypeError).
Proof.
  split; [|split].
  - intros doc metadata Hmd. by destruct metadata.
  - intros record fields. unfold text_content.
    destruct (joined (JObj fields) "customer_concerns") as [concerns|e1] eqn:Hc;
      destruct (joined (JObj fields) "topic_keywords") as [keywords|e2] eqn:Hk; cbn.
    + split; eauto.
    + split; [intros [? [=]] | intros (? & ? & _ & [=])].
    + split; [intros [? [=]] | intros (? & ? & [=] & _)].
    + split; [intros [? [=]] | intros (? & ? & [=] & _)].
  - intros record fields e. unfold text_content. rewrite !field_dict.
    destruct (joined (JObj fields) "customer_concerns") as [concerns|e1] eqn:Hc;
      destruct (joined (JObj fields) "topic_keywords") as [keywords|e2] eqn:Hk; cbn;
      try discriminate; intros [= <-]; by eapply joined_raises.
Qed.

(** ** Runs that end normally *)

Lemma valid_record_never_aborts_witness :
  exists s' t,
    process_record (world_with refused_attempt) "vs_123" 1 1 refund_ticket
      (initial_state (world_with refused_attempt)) = (Ok tt, s', t) /\
    (success_count s' = 1 /\ error_count s' = 0
     \/ success_count s' = 0 /\ error_count s' = 1).
Proof.
  apply (valid_record_never_aborts (world_with refused_attempt) "vs_123" 1 1
           refund_ticket (initial_state (world_with refused_attempt)));
    reflexivity.
Defined.

(** X17.  Whatever the service and the disk do to the individual
    records, a run over at least one record exits with code 0 and accounts
    for every record, as long as the records are objects with object (or
    no) metadata, the prints of the records and of the vector store id go
    through, and the handler's [os.remove] goes through. *)
Theorem valid_records_exit_zero w id lines :
  client_error w (getenv w "OPENAI_API_KEY") = None ->
  getenv w "OPENAI_VECTOR_STORE_ID" = Some id ->
  String.eqb id "" = false ->
  encodable id = true ->
  input w = Lines lines ->
  forallb well_formed lines = true ->
  documents_of lines <> [] ->
  forallb valid_record (documents_of lines) = true ->
  all_records (prints_go_through w) 0 (documents_of lines) = true ->
  (forall global_index, cleanup (attempts w global_index) = None) ->
  exit_code (main w) = 0 /\
  success_count (final (main w)) + error_count (final (main w))
  = length (documents_of lines).
Proof.
  intros Hclient Hid Hne _ Hin Hwf Hdocs Hvalid _ Hclean.
  destruct (upload_to_vector_store_run w id lines Hclient Hid Hne Hin Hwf)
    as (before & Hmain).
  destruct (process_documents_total w id (documents_of lines))
    with (s := initial_state w) as (s1 & t1 & Hloop).
  { intros p doc s Hp. apply process_record_total; [|done].
    by eapply forallb_lookup. }
  destruct (report_run id (documents_of lines) s1 Hdocs) as (rate & _ & Hreport).
  pose proof (bind_ok _ (fun _ => report id (documents_of lines)) _ _ _ _ _ _ _
                Hloop Hreport) as Hrun.
  apply Hmain in Hrun. unfold main. rewrite Hrun. simpl. split; [done|].
  apply process_documents_inv in Hloop as (s0 & ts & _ & Hs & He & Hts & _).
  apply processed_outcomes in Hts as [Hsum _]. lia.
Qed.

Lemma valid_records_exit_zero_witness :
  exit_code (main (world_with unattached_attempt)) = 0 /\
  success_count (final (main (world_with unattached_attempt)))
  + error_count (final (main (world_with unattached_attempt))) = 1.
Proof.
  apply (valid_records_exit_zero (world_with unattached_attempt) "vs_123"
           [Parsed refund_ticket]); first [reflexivity | discriminate].
Defined.

Lemma rendering_failures_witness :
  text_content (fun _ => "?") plain_ticket JNull = Raise AttributeError.
Proof.
  apply (proj1 (rendering_failures (fun _ => "?"))). reflexivity.
Defined.

(** X19.  The payment flag is rendered twice and not the same way: by its
    truth value as Yes or No in the summary, and as the value itself (False
    when the key is missing) in the metadata block. *)
Theorem payment_issue_rendered_twice (py_repr : json -> string) doc fields text :
  text_content py_repr doc (JObj fields) = Ok text ->
  exists head middle tail,
    text = head +:+ "
Payment Issue: "
           +:+ (if truthy (dict_get fields "has_payment_issue" JNull)
                then "Yes" else "No") +:+ "
Edge Case: " +:+ middle +:+ "
- Has Payment Issue: "
           +:+ format py_repr (dict_get fields "has_payment_issue" (JBool false)) +:+ "
- Edge Case: " +:+ tail.
Proof.
  unfold text_content. rewrite !field_dict.
  destruct (joined (JObj fields) "customer_concerns") as [concerns|] eqn:Hc;
    [|cbn; discriminate].
  destruct (field py_repr doc "text" (JStr "")) as [body|] eqn:Hb; [|cbn; discriminate].
  destruct (joined (JObj fields) "topic_keywords") as [keywords|] eqn:Hk;
    [|cbn; discriminate].
  cbn. intros [= <-].
  exists ("CANCELLATION TICKET: "
          +:+ format py_repr (dict_get fields "ticketId" (JStr "unknown")) +:+ "
Subject: " +:+ format py_repr (dict_get fields "subject" (JStr "N/A")) +:+ "
Language: " +:+ format py_repr (dict_get fields "language" (JStr "unknown")) +:+ "
Category: "
          +:+ (if truthy (dict_get fields "is_cancellation" JNull)
               then "Cancellation" else "Other")).
  exists (format py_repr (dict_get fields "edge_case" (JStr "none")) +:+ "
Customer Concerns: " +:+ concerns +:+ "

CONVERSATION:
" +:+ body +:+ "

METADATA:
- Ticket ID: " +:+ format py_repr (dict_get fields "ticketId" (JStr "unknown")) +:+ "
- Language: " +:+ format py_repr (dict_get fields "language" (JStr "unknown"))).
  eexists.
  rewrite !append_assoc. reflexivity.
Qed.

Lemma payment_issue_rendered_twice_witness :
  exists head middle tail,
    refund_text = head +:+ "
Payment Issue: No
Edge Case: " +:+ middle +:+ "
- Has Payment Issue: False
- Edge Case: " +:+ tail.
Proof.
  apply (payment_issue_rendered_twice (fun _ => "?") refund_ticket refund_metadata
           refund_text).
  reflexivity.
Defined.

(** ** Transient files over the whole run *)

Lemma processed_files w vsid total p l s s' ts path :
  processed w vsid total p l s s' ts ->
  In (EOpen path "w") (concat ts) ->
  disk s' !! path = None.
Proof.
  induction 1 as [p s|p doc rest s s1 s2 t ts Hdoc Hrest IH]; [done|].
  simpl. intros [Hin|Hin]%in_app_or; [|by apply IH].
  apply process_record_inv in Hdoc as (_ & _ & Hgone).
  destruct (processed_disk _ _ _ _ _ _ _ _ path Hrest) as [?|Heq]; [done|].
  rewrite Heq. by apply Hgone.
Qed.

Lemma weave_inv e total count : forall i ts,
  In e (weave count i total ts) ->
  In e (concat ts) \/ is_write_or_remove e = false.
Proof.
  induction count as [|count IH]; intros i ts Hin; [done|].
  cbn [weave] in Hin. destruct Hin as [<-|Hin]; [by right|].
  apply in_app_or in Hin as [Hin|Hin].
  { left. rewrite <- (take_drop batch_size ts), concat_app.
    apply in_or_app. by left. }
  apply in_app_or in Hin as [Hin|Hin].
  { right. destruct (i + batch_size <? total); [|done].
    destruct Hin as [<-|[<-|[]]]; done. }
  apply IH in Hin as [Hin|?]; [|by right].
  left. rewrite <- (take_drop batch_size ts), concat_app.
  apply in_or_app. by right.
Qed.

(** X20.  After a run that exits with code 0, none of the files the run
    opened for writing is on the disk. *)
Theorem completed_run_leaves_no_transient_file w path :
  exit_code (main w) = 0 ->
  In (EOpen path "w") (trace (main w)) ->
  disk (final (main w)) !! path = None.
Proof.
  unfold main.
  destruct (upload_to_vector_store w (initial_state w)) as [[[[]|e] s'] t] eqn:Hrun;
    [|discriminate].
  intros _. simpl. intros Hin.
  apply upload_ok_inv in Hrun
    as (id & lines & t1 & _ & _ & _ & _ & _ & _ & Hloop
        & before & after & -> & Hbefore & Hafter).
  apply process_documents_inv in Hloop as (s0 & ts & _ & _ & _ & Hts & ->).
  assert (forall l, Forall (fun e => is_write_or_remove e = false
                                     /\ is_api_call e = false) l ->
                    ~ In (EOpen path "w") l) as Hnot.
  { intros l Hl Hinl. rewrite Forall_forall in Hl.
    apply list_elem_of_In, Hl in Hinl as [Hw _]. discriminate Hw. }
  apply in_app_or in Hin as [Hin|Hin]; [by apply Hnot in Hin|].
  apply in_app_or in Hin as [Hin|Hin]; [|by apply Hnot in Hin].
  apply weave_inv in Hin as [Hin|Hw]; [|discriminate Hw].
  by eapply processed_files.
Qed.

Lemma completed_run_leaves_no_transient_file_witness :
  disk (final (main second_refused_world)) !! "temp_cancellation_T-7.txt" = None.
Proof.
  apply (completed_run_leaves_no_transient_file second_refused_world).
  - vm_compute. reflexivity.
  - vm_compute. tauto.
Defined.
